(** * 2cents: the investment-return simulation handlers

    A shallow embedding of [internal/api/handler/rendiments.go]: the three
    simulations ([SimulateCDB], [SimulatePoupanca], [SimulatePoupancaMonthly])
    and the two HTTP handlers that drive them ([SimulateAllRendiments],
    [SimulateMonthlyRendiments]).

    The handlers are written once, over an interface [Float64] of the
    [float64] operations the Go code uses, and read at two instances:

    - [Exact]: [float64] is [R]; no rounding error, no overflow, no NaN.
      The algebraic statements (which formula, which tier, monotonicity)
      are proved there; a division by zero has no meaning there and no
      statement rests on one. A statement about the order of amounts is
      about the formula, and carries bounds inside which binary64 stays
      finite.
    - [IEEE]: [float64] is the kernel's binary64, each operation rounded
      on its own (no fused multiply-add); the code is evaluated there at
      concrete inputs, special values included.

    Go's [int] is [Z] with the 64-bit wrap-around written out. *)

From Stdlib Require Import ZArith QArith Reals Qreals Lra Lia List Bool String.
From Stdlib Require Import Floats.PrimFloat Floats.FloatOps Floats.SpecFloat.
From Stdlib Require Uint63.
Import ListNotations.

Close Scope Q_scope.

(* ================================================================= *)
(** ** Go's [int] (64 bits, two's complement) *)

Module GoInt.
Local Open Scope Z_scope.

Definition wrap (z : Z) : Z := (z + 2 ^ 63) mod 2 ^ 64 - 2 ^ 63.

Definition InRange (z : Z) : Prop := - 2 ^ 63 <= z < 2 ^ 63.

(** [a * b] *)
Definition mul (a b : Z) : Z := wrap (a * b).

(** [a / b] for a non-zero [b]: the quotient truncated toward zero. *)
Definition quo (a b : Z) : Z := wrap (Z.quot a b).
End GoInt.

(* ================================================================= *)
(** ** The [float64] operations the handlers use *)

(** A [decimal.Decimal] of the metric table is a decimal fraction; its value
    is kept as a rational. *)
Definition Decimal := Q.
Bind Scope Q_scope with Decimal.

Class Float64 := {
  float64 : Type;
  (** an untyped numeric constant, converted where it is used *)
  const : Q -> float64;
  (** [float64(n)] for an [int] *)
  of_int : Z -> float64;
  (** [d.InexactFloat64()] *)
  InexactFloat64 : Decimal -> float64;
  fadd : float64 -> float64 -> float64;
  fsub : float64 -> float64 -> float64;
  fmul : float64 -> float64 -> float64;
  fdiv : float64 -> float64 -> float64;
  (** [x < y] *)
  flt : float64 -> float64 -> bool;
  (** [math.Floor], [math.Round], [math.Pow] *)
  Floor : float64 -> float64;
  Round : float64 -> float64;
  Pow : float64 -> float64 -> float64
}.

Declare Scope f64_scope.
Delimit Scope f64_scope with f64.
Notation "x + y" := (fadd x y) : f64_scope.
Notation "x - y" := (fsub x y) : f64_scope.
Notation "x * y" := (fmul x y) : f64_scope.
Notation "x / y" := (fdiv x y) : f64_scope.
Notation "x <? y" := (flt x y) : f64_scope.

(* ----------------------------------------------------------------- *)
(** *** Exact arithmetic *)

Module ExactOps.
Local Open Scope R_scope.

Definition lt (x y : R) : bool := if Rlt_dec x y then true else false.

Definition Floor (x : R) : R := IZR (Zfloor x).

(** Nearest integer, halves away from zero. *)
Definition Round (x : R) : R :=
  if Rle_dec 0 x then IZR (Zfloor (x + / 2)) else - IZR (Zfloor (- x + / 2)).

(** [x] to the power [y]: by repeated multiplication (or division) at an
    integral [y], by [exp (y * ln x)] elsewhere. *)
Definition Pow (x y : R) : R :=
  if Req_dec_T y (IZR (Zfloor y)) then powerRZ x (Zfloor y) else Rpower x y.
End ExactOps.

Definition Exact : Float64 := {|
  float64 := R;
  const := Q2R;
  of_int := IZR;
  InexactFloat64 := Q2R;
  fadd := Rplus;
  fsub := Rminus;
  fmul := Rmult;
  fdiv := Rdiv;
  flt := ExactOps.lt;
  Floor := ExactOps.Floor;
  Round := ExactOps.Round;
  Pow := ExactOps.Pow
|}.

(* ----------------------------------------------------------------- *)
(** *** IEEE 754 binary64 *)

Module IEEEOps.
Local Open Scope float_scope.

(** [float64(n)], rounded to nearest when [n] has more than 53 bits. *)
Definition of_Z (z : Z) : float :=
  if (Z.abs z <? 2 ^ 63)%Z then
    if (z <? 0)%Z then - of_uint63 (Uint63.of_Z (- z)) else of_uint63 (Uint63.of_Z z)
  else if (z <? 0)%Z then Z.ldexp (- 1) 63 else Z.ldexp 1 63.

(** The float nearest to [n / d]. The quotient of two floats is rounded
    once, so this is the nearest float whenever [n] and [d] have at most
    53 bits, as the constants of the handlers have. *)
Definition of_Q (q : Q) : float := of_Z (Qnum q) / of_Z (Zpos (Qden q)).

(** [math.Floor]: the greatest integer at most [x]; zeros, infinities and
    NaN are returned as they are. *)
Definition Floor (x : float) : float :=
  match Prim2SF x with
  | S754_finite s m e =>
      if (0 <=? e)%Z then x
      else
        let d := (2 ^ (- e))%Z in
        let q := (Zpos m / d)%Z in
        if s then (if (Zpos m mod d =? 0)%Z then x else - of_Z (q + 1))
        else of_Z q
  | _ => x
  end.

(** [math.Round]: the nearest integer, halves away from zero, with the
    sign of [x] kept on a zero result. *)
Definition Round (x : float) : float :=
  match Prim2SF x with
  | S754_finite s m e =>
      if (0 <=? e)%Z then x
      else
        let d := (2 ^ (- e))%Z in
        let q := (Zpos m / d)%Z in
        let n := if (d <=? 2 * (Zpos m mod d))%Z then (q + 1)%Z else q in
        if s then - of_Z n else of_Z n
  | _ => x
  end.

(** The integer a float is, when it is one. *)
Definition to_Z (y : float) : option Z :=
  match Prim2SF y with
  | S754_zero _ => Some 0%Z
  | S754_finite s m e =>
      let sign := fun z : Z => if s then (- z)%Z else z in
      if (0 <=? e)%Z then Some (sign (Zpos m * 2 ^ e)%Z)
      else if (Zpos m mod 2 ^ (- e) =? 0)%Z then Some (sign (Zpos m / 2 ^ (- e))%Z)
      else None
  | _ => None
  end.

Definition isOddInt (y : float) : bool :=
  match to_Z y with
  | Some z => (Z.abs z <? 2 ^ 53)%Z && Z.odd z
  | None => false
  end.

(** [math.Pow] at [x = ±0]. *)
Definition pow_zero (x y : float) : float :=
  if y <? 0 then (if get_sign x && isOddInt y then neg_infinity else infinity)
  else (if get_sign x && isOddInt y then x else 0).

(** The square-and-multiply loop of [math.Pow]: [ans = a1 * 2^ae] is
    multiplied by [(x1 * 2^xe)^i]; [i >>= 1] strips the lowest bit. *)
Fixpoint pow_loop (i : positive) (a1 : float) (ae : Z) (x1 : float) (xe : Z)
  : float * Z :=
  if ((xe <? - 4096) || (4096 <? xe))%Z then (a1, (ae + xe)%Z)
  else
    let odd := match i with xO _ => false | _ => true end in
    let a1' := if odd then a1 * x1 else a1 in
    let ae' := if odd then (ae + xe)%Z else ae in
    let x1' := x1 * x1 in
    let xe' := (2 * xe)%Z in
    let x1'' := if x1' <? 0.5 then x1' + x1' else x1' in
    let xe'' := if x1' <? 0.5 then (xe' - 1)%Z else xe' in
    match i with
    | xH => (a1', ae')
    | xO j | xI j => pow_loop j a1' ae' x1'' xe''
    end.

(** [math.Pow(x, y)]. Its special cases, and the loop for an integral
    [y]; the handlers raise to [float64(n)] only. A fractional [y] other
    than [±0.5] needs [Exp] and [Log], which are not modelled: NaN
    stands for that result. *)
Definition Pow (x y : float) : float :=
  if (y =? 0) || (x =? 1) then 1
  else if y =? 1 then x
  else if is_nan x || is_nan y then nan
  else if x =? 0 then pow_zero x y
  else if is_infinity y then
    (if x =? - 1 then 1
     else if Bool.eqb (abs x <? 1) (y =? infinity) then 0 else infinity)
  else if is_infinity x then
    (if x =? neg_infinity then pow_zero (1 / x) (- y)
     else if y <? 0 then 0 else infinity)
  else if y =? 0.5 then PrimFloat.sqrt x
  else if y =? - 0.5 then 1 / PrimFloat.sqrt x
  else
    match to_Z (abs y) with
    | None => nan
    | Some yi =>
        if (2 ^ 63 <=? yi)%Z then
          (if x =? - 1 then 1
           else if Bool.eqb (abs x <? 1) (0 <? y) then 0 else infinity)
        else
          let (x1, xe) := Z.frexp x in
          let (a1, ae) :=
            match yi with
            | Zpos i => pow_loop i 1 0%Z x1 xe
            | _ => (1, 0%Z)
            end in
          if y <? 0 then Z.ldexp (1 / a1) (- ae) else Z.ldexp a1 ae
    end.
End IEEEOps.

Definition IEEE : Float64 := {|
  float64 := float;
  const := IEEEOps.of_Q;
  of_int := IEEEOps.of_Z;
  InexactFloat64 := IEEEOps.of_Q;
  fadd := PrimFloat.add;
  fsub := PrimFloat.sub;
  fmul := PrimFloat.mul;
  fdiv := PrimFloat.div;
  flt := PrimFloat.ltb;
  Floor := IEEEOps.Floor;
  Round := IEEEOps.Round;
  Pow := IEEEOps.Pow
|}.

(* ================================================================= *)
(** ** Constants of the package *)

Definition CDI_TYPE : Z := 1.
Definition SELIC : Z := 2.
Definition CDI_PERCENT : Q := 100.
Definition BUSINESS_DAYS : Q := 21.
Definition UNTIL_180_DAYS : Q := 22.5.
Definition UNTIL_360_DAYS : Q := 20.
Definition UNTIL_720_DAYS : Q := 17.5.
Definition MORE_THAN_720_DAYS : Q := 15.
Definition ONE_YEAR_DAYS : Z := 365.
Definition MONTH_TAX_DEFAULT : Q := 0.005.
Definition SELIC_LESS_THAN_EIGHT : Q := 0.085.

(** [int(c)] for a constant [c] that is a whole number. *)
Definition int_const (c : Q) : Z := Z.quot (Qnum c) (Zpos (Qden c)).

Definition StatusOK : Z := 200.
Definition StatusUnprocessableEntity : Z := 422.
Definition StatusInternalServerError : Z := 500.

(* ================================================================= *)
(** ** Requests, responses and the world a handler runs in *)

Record SimulationRequest {F : Float64} := {
  InitialValue : float64;
  Months : Z;
  Accumulated : option float64
}.

Record SimulationResponse {F : Float64} := {
  CdbValue : float64;
  PoupancaValue : float64
}.

Arguments SimulationRequest : clear implicits.
Arguments SimulationResponse : clear implicits.

Definition setInitialValue {F : Float64} (request : SimulationRequest F) (v : float64)
  : SimulationRequest F :=
  {| InitialValue := v; Months := Months request; Accumulated := Accumulated request |}.

Definition setMonths {F : Float64} (request : SimulationRequest F) (m : Z)
  : SimulationRequest F :=
  {| InitialValue := InitialValue request; Months := m; Accumulated := Accumulated request |}.

(** The request with the given fields, at a chosen arithmetic. *)
Definition mkRequest (F : Float64) (initialValue : @float64 F) (months : Z)
    (accumulated : option (@float64 F)) : SimulationRequest F :=
  {| InitialValue := initialValue; Months := months; Accumulated := accumulated |}.

Definition mkResponse (F : Float64) (cdb poupanca : @float64 F) : SimulationResponse F :=
  {| CdbValue := cdb; PoupancaValue := poupanca |}.

(** A Go [error] value; [nil] is [None] of [option error]. *)
Inductive error : Type := Err (msg : string).

(** A row of the metric table. *)
Record Metric := { Value : Decimal }.

(** The [repository.MetricRepository] interface. Each call of
    [GetLastMetric] reads the store anew, so its outcome may differ from one
    call to the next: the [n]-th call of a request (from 0) for metric
    [metricType] returns [GetLastMetric n metricType]. *)
Class MetricRepository := {
  GetLastMetric : nat -> Z -> Metric + error
}.

Record RendimentsHandler := { metricRepository : MetricRepository }.

(** The messages a handler puts in a [gin.H]: the literal of the binding
    failure and the three constants of package [error_message]. *)
Inductive Message : Type :=
  | InvalidSimulationParameters
  | ErrSimulateCdb
  | ErrSimulatePoupanca
  | ErrFindMetric.

Inductive Body {F : Float64} : Type :=
  | gin_H (code : Z) (message : Message)
  | Simulations (simulations : SimulationResponse F).

Arguments Body : clear implicits.

(** What a handler does to its [gin.Context], in order. *)
Inductive CtxCall {F : Float64} : Type :=
  | AbortWithStatusJSON (code : Z) (obj : Body F)
  | JSON (code : Z) (obj : Body F).

Arguments CtxCall : clear implicits.

Record World {F : Float64} := {
  fetched : nat;            (* calls of GetLastMetric so far *)
  ctx : list (CtxCall F)    (* calls on the gin.Context so far *)
}.

Arguments World : clear implicits.

(* ----------------------------------------------------------------- *)
(** *** The monad of handler code *)

Definition Action (F : Float64) (A : Type) : Type := World F -> A * World F.

Definition ret {F : Float64} {A : Type} (a : A) : Action F A := fun w => (a, w).

Definition bind {F : Float64} {A B : Type} (m : Action F A) (k : A -> Action F B)
  : Action F B :=
  fun w => let (a, w') := m w in k a w'.

Notation "x <- m ;; k" := (bind m (fun x => k))
  (at level 61, m at next level, right associativity).
Notation "' pat <- m ;; k" := (bind m (fun x => match x with pat => k end))
  (at level 61, pat pattern, m at next level, right associativity).
Notation "m ;; k" := (bind m (fun _ => k))
  (at level 61, right associativity).

Definition call_ctx {F : Float64} (c : CtxCall F) : Action F unit :=
  fun w => (tt, {| fetched := fetched w; ctx := ctx w ++ [c] |}).

Definition fetch {F : Float64} (rh : RendimentsHandler) (metricType : Z)
  : Action F (Metric + error) :=
  fun w => (@GetLastMetric (metricRepository rh) (fetched w) metricType,
            {| fetched := S (fetched w); ctx := ctx w |}).

(** A fresh request: nothing fetched, nothing written. *)
Definition start {F : Float64} : World F := {| fetched := 0; ctx := [] |}.

(* ================================================================= *)
(** ** [SimulateCDB] *)

(** The local variables of [SimulateCDB] once the CDI metric is fetched, in
    the order of the source. *)
Module CDB.
Section Locals.
Context {F : Float64}.
Variable metric : Metric.
Variable request : SimulationRequest F.
Local Open Scope f64_scope.

Definition dailyCdi : float64 := InexactFloat64 (Value metric) / const 100.

Definition initialValue : float64 := InitialValue request.
Definition months : Z := Months request.

(** [months * int(BUSINESS_DAYS)] *)
Definition businessDays : Z := GoInt.mul months (int_const BUSINESS_DAYS).

(** [(months / 12.0) * ONE_YEAR_DAYS]: [months] is an [int], so the
    constant [12.0] is converted to the [int] 12 and the division is the
    truncating division of integers; [totalDays] is an [int]. *)
Definition totalDays : Z := GoInt.mul (GoInt.quo months (int_const 12)) ONE_YEAR_DAYS.

(** [CDI_PERCENT / 100.0] is a constant expression. *)
Definition adjustedDailyCdi : float64 := dailyCdi * const (CDI_PERCENT / 100).

(** [finalAmount] as first assigned. *)
Definition grossAmount : float64 :=
  Floor initialValue * Pow (const 1 + adjustedDailyCdi) (of_int businessDays).

Definition profit : float64 := grossAmount - initialValue.

Definition taxRate : float64 :=
  if (totalDays <? 180)%Z then const UNTIL_180_DAYS
  else if (totalDays <? 360)%Z then const UNTIL_360_DAYS
  else if (totalDays <? 720)%Z then const UNTIL_720_DAYS
  else const MORE_THAN_720_DAYS.

Definition taxDiscount : float64 := (profit * taxRate) / const 100.

(** [finalAmount] after [finalAmount -= taxDiscount]. *)
Definition finalAmount : float64 := grossAmount - taxDiscount.

(** The value returned. *)
Definition result : float64 := Round (finalAmount * const 100) / const 100.
End Locals.
End CDB.

Definition SimulateCDB {F : Float64} (rh : RendimentsHandler)
    (request : SimulationRequest F) : Action F (float64 * option error) :=
  r <- fetch rh CDI_TYPE ;;
  match r with
  | inr err =>
      call_ctx (AbortWithStatusJSON StatusInternalServerError
                  (gin_H StatusInternalServerError ErrFindMetric)) ;;
      ret (const 0, None)
  | inl metric => ret (CDB.result metric request, None)
  end.

(* ================================================================= *)
(** ** [SimulatePoupanca] *)

Module Poupanca.
Section Locals.
Context {F : Float64}.
Variable metric : Metric.
Variable request : SimulationRequest F.
Local Open Scope f64_scope.

Definition anualSelic : float64 := InexactFloat64 (Value metric) / const 100.

Definition monthTax : float64 :=
  if anualSelic <? const SELIC_LESS_THAN_EIGHT
  then (const 0.7 * anualSelic) / const 12
  else const MONTH_TAX_DEFAULT.

Definition finalAmount : float64 :=
  InitialValue request * Pow (const 1 + monthTax) (of_int (Months request)).

Definition result : float64 := Round (finalAmount * const 100) / const 100.
End Locals.
End Poupanca.

Definition SimulatePoupanca {F : Float64} (rh : RendimentsHandler)
    (request : SimulationRequest F) : Action F (float64 * option error) :=
  r <- fetch rh SELIC ;;
  match r with
  | inr err =>
      call_ctx (AbortWithStatusJSON StatusInternalServerError
                  (gin_H StatusInternalServerError ErrFindMetric)) ;;
      ret (const 0, None)
  | inl metric => ret (Poupanca.result metric request, None)
  end.

(* ================================================================= *)
(** ** [SimulatePoupancaMonthly] *)

Module PoupancaMonthly.
Section Locals.
Context {F : Float64}.
Variable metric : Metric.
Variable request : SimulationRequest F.
Local Open Scope f64_scope.

Definition accumulatedValue : float64 :=
  match Accumulated request with
  | Some a => a
  | None => const 0
  end.

Definition anualSelic : float64 := InexactFloat64 (Value metric) / const 100.

Definition monthTax : float64 :=
  if anualSelic <? const SELIC_LESS_THAN_EIGHT
  then (const 0.7 * anualSelic) / const 12
  else const MONTH_TAX_DEFAULT.

Definition futureAmount : float64 :=
  InitialValue request
  * (Pow (const 1 + monthTax) (of_int (Months request)) - const 1) / monthTax.

Definition totalAmount : float64 :=
  accumulatedValue * Pow (const 1 + monthTax) (of_int (Months request)) + futureAmount.

Definition result : float64 := Round (totalAmount * const 100) / const 100.
End Locals.
End PoupancaMonthly.

Definition SimulatePoupancaMonthly {F : Float64} (rh : RendimentsHandler)
    (request : SimulationRequest F) : Action F (float64 * option error) :=
  r <- fetch rh SELIC ;;
  match r with
  | inr err =>
      call_ctx (AbortWithStatusJSON StatusInternalServerError
                  (gin_H StatusInternalServerError ErrFindMetric)) ;;
      ret (const 0, None)
  | inl metric => ret (PoupancaMonthly.result metric request, None)
  end.

(* ================================================================= *)
(** ** The two HTTP handlers *)

(** [ctx.ShouldBindJSON(&request)] is the handler's input: [inl request]
    when the body binds, [inr err] when it does not. The calls of the logger
    write no response and are left out. *)

Definition SimulateAllRendiments {F : Float64} (rh : RendimentsHandler)
    (bound : SimulationRequest F + error) : Action F unit :=
  match bound with
  | inr err =>
      call_ctx (AbortWithStatusJSON StatusUnprocessableEntity
                  (gin_H StatusUnprocessableEntity InvalidSimulationParameters))
  | inl request =>
      '(cdb, err) <- SimulateCDB rh request ;;
      match err with
      | Some _ =>
          call_ctx (AbortWithStatusJSON StatusInternalServerError
                      (gin_H StatusInternalServerError ErrSimulateCdb))
      | None =>
          '(poupanca, err) <- SimulatePoupanca rh request ;;
          match err with
          | Some _ =>
              call_ctx (AbortWithStatusJSON StatusInternalServerError
                          (gin_H StatusInternalServerError ErrSimulatePoupanca))
          | None =>
              call_ctx (JSON StatusOK
                          (Simulations {| CdbValue := cdb; PoupancaValue := poupanca |}))
          end
      end
  end.

(** The loop [for i := 0; i < monthsToCalculate; i++] of
    [SimulateMonthlyRendiments], with [n] iterations left and the loop
    variable at [i]; it returns [cdbFinalValue]. The only field of [request]
    it writes is [Months], which the handler overwrites after the loop. *)
Fixpoint monthlyLoop {F : Float64} (rh : RendimentsHandler) (n : nat) (i : Z)
    (request : SimulationRequest F) (cdbFinalValue : float64) : Action F float64 :=
  match n with
  | O => ret cdbFinalValue
  | S n' =>
      let request := setMonths request i in
      '(cdbPerMonth, err) <- SimulateCDB rh request ;;
      match err with
      | Some _ => monthlyLoop rh n' (i + 1)%Z request cdbFinalValue
      | None => monthlyLoop rh n' (i + 1)%Z request (cdbFinalValue + cdbPerMonth)%f64
      end
  end.

Definition SimulateMonthlyRendiments {F : Float64} (rh : RendimentsHandler)
    (bound : SimulationRequest F + error) : Action F unit :=
  match bound with
  | inr err =>
      call_ctx (AbortWithStatusJSON StatusUnprocessableEntity
                  (gin_H StatusUnprocessableEntity InvalidSimulationParameters))
  | inl request =>
      let request :=
        setInitialValue request (InitialValue request / of_int (Months request))%f64 in
      let monthsToCalculate := Months request in
      cdbFinalValue <- monthlyLoop rh (Z.to_nat monthsToCalculate) 0%Z request (const 0) ;;
      let request := setMonths request monthsToCalculate in
      '(poup, err) <- SimulatePoupancaMonthly rh request ;;
      match err with
      | Some _ =>
          call_ctx (AbortWithStatusJSON StatusUnprocessableEntity
                      (gin_H StatusUnprocessableEntity ErrSimulatePoupanca))
      | None => ret tt
      end ;;
      let respond := fun cdbFinalValue : float64 =>
        call_ctx (JSON StatusOK
                    (Simulations
                       {| CdbValue := (Round (cdbFinalValue * const 100) / const 100)%f64;
                          PoupancaValue := poup |})) in
      match Accumulated request with
      | Some accumulated =>
          let request := setInitialValue request accumulated in
          '(accumulatedCdb, err) <- SimulateCDB rh request ;;
          match err with
          | Some _ =>
              call_ctx (AbortWithStatusJSON StatusInternalServerError
                          (gin_H StatusInternalServerError ErrSimulateCdb))
          | None => respond (cdbFinalValue + accumulatedCdb)%f64
          end
      | None => respond cdbFinalValue
      end
  end.

(* ================================================================= *)
(** ** Reading a run *)

(** Rounding to two decimals, as each simulation does before it returns and
    [SimulateMonthlyRendiments] does before it answers. *)
Definition round2 {F : Float64} (x : float64) : float64 :=
  (Round (x * const 100) / const 100)%f64.

(** [cdbFinalValue] after [cdbFinalValue += v] for each [v] of [l], from the
    zero value. *)
Definition sum {F : Float64} (l : list float64) : float64 :=
  fold_left fadd l (const 0).

(** The loop indices [i, i+1, ...], [n] of them. *)
Fixpoint upto (i : Z) (n : nat) : list Z :=
  match n with
  | O => []
  | S n' => i :: upto (i + 1)%Z n'
  end.

(** [0, 1, ..., months-1] *)
Definition indices (months : Z) : list Z := upto 0%Z (Z.to_nat months).

(** Running [f] on each element in turn. *)
Fixpoint forEach {F : Float64} {A B : Type} (f : A -> Action F B) (l : list A)
  : Action F (list B) :=
  match l with
  | [] => ret []
  | a :: l' => b <- f a ;; bs <- forEach f l' ;; ret (b :: bs)
  end.

(** The request [SimulateMonthlyRendiments] passes on for loop index [i]:
    the flat monthly contribution as principal, [i] as the months. *)
Definition perMonth {F : Float64} (request : SimulationRequest F) (i : Z)
  : SimulationRequest F :=
  {| InitialValue := (InitialValue request / of_int (Months request))%f64;
     Months := i;
     Accumulated := Accumulated request |}.

(** The world after the answer of [SimulateMonthlyRendiments]: its closing
    [ctx.JSON(http.StatusOK, simulations)] with [cdbFinalValue] rounded. *)
Definition answered {F : Float64} (w : World F) (cdbFinalValue poup : float64) : World F :=
  {| fetched := fetched w;
     ctx := ctx w ++ [JSON StatusOK
                        (Simulations {| CdbValue := round2 cdbFinalValue;
                                        PoupancaValue := poup |})] |}.

(** What [SimulateCDB] returns, and what it writes to the context, when its
    fetch is the [n]-th of the request. *)
Definition cdbValue {F : Float64} (rh : RendimentsHandler) (n : nat)
    (request : SimulationRequest F) : float64 :=
  match @GetLastMetric (metricRepository rh) n CDI_TYPE with
  | inl metric => CDB.result metric request
  | inr _ => const 0
  end.

Definition cdbWrites {F : Float64} (rh : RendimentsHandler) (n : nat) : list (CtxCall F) :=
  match @GetLastMetric (metricRepository rh) n CDI_TYPE with
  | inl _ => []
  | inr _ => [AbortWithStatusJSON StatusInternalServerError
                (gin_H StatusInternalServerError ErrFindMetric)]
  end.

(* ----------------------------------------------------------------- *)
(** *** Repositories to run against *)

(** Every fetch succeeds, with the same two rates. *)
Definition constantRates (cdi selic : Decimal) : MetricRepository :=
  {| GetLastMetric := fun _ metricType =>
       inl {| Value := if (metricType =? CDI_TYPE)%Z then cdi else selic |} |}.

(** No fetch succeeds. *)
Definition unavailable : MetricRepository :=
  {| GetLastMetric := fun _ _ => inr (Err "record not found") |}.

(** As [repo], but the [k]-th fetch fails. *)
Definition failingAt (k : nat) (repo : MetricRepository) : MetricRepository :=
  {| GetLastMetric := fun n metricType =>
       if Nat.eqb n k then inr (Err "record not found")
       else @GetLastMetric repo n metricType |}.

Definition handlerOf (repo : MetricRepository) : RendimentsHandler :=
  {| metricRepository := repo |}.

(* ================================================================= *)
(** ** The specification's formulas, in its own words *)

Module Spec.
Local Open Scope R_scope.

(** "totalCalendarDays = (months / 12) x 365, computed using real-number
    division of months by 12" *)
Definition totalCalendarDays (months : Z) : R := IZR months / 12 * 365.

(** The four-tier regressive schedule as a table of (exclusive upper bound,
    rate); the last tier has no bound. *)
Definition taxTable : list (R * R) := [(180, 22.5); (360, 20); (720, 17.5)].
Definition lastTier : R := 15.

Fixpoint lookup (table : list (R * R)) (days : R) : R :=
  match table with
  | [] => lastTier
  | (bound, rate) :: rest => if Rlt_dec days bound then rate else lookup rest days
  end.

Definition taxRate (days : R) : R := lookup taxTable days.

(** "if annualRate < 0.085, monthlyRate = (0.7 x annualRate) / 12;
    otherwise monthlyRate = 0.005" *)
Definition monthlyRate (annualPolicyRatePercent : R) : R :=
  let annualRate := annualPolicyRatePercent / 100 in
  if Rlt_dec annualRate 0.085 then (0.7 * annualRate) / 12 else 0.005.
End Spec.

(* ================================================================= *)
(** ** The savings handler ([SavingHandler]) *)

(** The second handler of the package: create, list, read, update and
    delete a user's savings ("caixinhas"). Its collaborators (the saving and
    category use cases, the expense handler, [GetUserIdByToken]) are
    declared in other packages: each is a parameter here, and every call
    made on one is logged in order, so that what the handler asks of them,
    and with which argument, can be stated. *)

Module Savings.

(** [model.Saving]: the fields the handler reads or writes. *)
Module Saving.
Record t := {
  ID : Z;
  UserID : Z;
  Description : string;
  Goal : Decimal;
  Accumulated : Decimal;
  IsEmergencyFund : Z;
  Priority : Z
}.

Definition setID (s : t) (v : Z) : t :=
  {| ID := v; UserID := UserID s; Description := Description s; Goal := Goal s;
     Accumulated := Accumulated s; IsEmergencyFund := IsEmergencyFund s;
     Priority := Priority s |}.

Definition setUserID (s : t) (v : Z) : t :=
  {| ID := ID s; UserID := v; Description := Description s; Goal := Goal s;
     Accumulated := Accumulated s; IsEmergencyFund := IsEmergencyFund s;
     Priority := Priority s |}.

Definition setPriority (s : t) (v : Z) : t :=
  {| ID := ID s; UserID := UserID s; Description := Description s; Goal := Goal s;
     Accumulated := Accumulated s; IsEmergencyFund := IsEmergencyFund s;
     Priority := v |}.
End Saving.

Module SavingAddRequest.
Record t := {
  Description : string;
  Goal : Decimal;
  Accumulated : Decimal;
  IsEmergencyFund : Z;
  ShouldBeExpense : Z;
  MonthsToGoal : Z
}.
End SavingAddRequest.

(** A category, as far as the handler looks at it. *)
Module Category.
Record t := { ID : Z }.
End Category.

(** A [time.Time]. *)
Definition Time : Type := Z.

(** The [ExpenseInput] of the expense handler: the fields [Create] sets. *)
Module ExpenseInput.
Record t := {
  Description : string;
  Value : Decimal;
  MultiplePayments : bool;
  NumInstallments : Z;
  PaymentDay : Z;
  DueDate : option Time;
  CategoryID : Z
}.
End ExpenseInput.

(** The constants of package [error_message] the handler uses. *)
Inductive error_message : Type :=
  | ErrCreateSaving
  | ErrCreateDuplicateEmergencyFund
  | ErrCreateExpenseFromSaving
  | ErrFindSaving
  | ErrUpdateSaving
  | ErrDeleteSaving.

(** A [gin.H], its entries in the order written; an entry is a number, a
    string literal, a constant of [error_message], or one more [gin.H] of
    numbers and strings. *)
Inductive Scalar : Type :=
  | Int (n : Z)
  | Str (s : string)
  | Msg (m : error_message).

Inductive Value : Type :=
  | Plain (v : Scalar)
  | Nested (fields : list (string * Scalar)).

Inductive Obj : Type :=
  | H (fields : list (string * Value))
  | SavingList (savings : list Saving.t).

Inductive CtxCall : Type :=
  | AbortWithStatusJSON (code : Z) (obj : Obj)
  | JSON (code : Z) (obj : Obj).

Definition StatusCreated : Z := 201.
Definition StatusBadRequest : Z := 400.
Definition StatusNotFound : Z := 404.
Definition StatusConflict : Z := 409.

(** A call on a collaborator. *)
Inductive Call : Type :=
  | CallGetAllSavings (userId : Z)
  | CallCreate (saving : Saving.t)
  | CallGetSaving (id : Z)
  | CallUpdate (saving : Saving.t)
  | CallDelete (saving : Saving.t)
  | CallGetCategory (name : string)
  | CallCreateExpense (input : ExpenseInput.t).

(** The collaborators. What a call returns may depend on the calls made
    before it (the store changes): each takes the calls so far. *)
Module SavingUseCase.
Record t := {
  GetAllSavings : list Call -> Z -> list Saving.t + error;
  Create : list Call -> Saving.t -> option error;
  GetSaving : list Call -> Z -> Saving.t + error;
  Update : list Call -> Saving.t -> option error;
  Delete : list Call -> Saving.t -> option error
}.
End SavingUseCase.

Module CategoryUseCase.
(** [GetCategory]'s result is indexed by the handler ([categoryId[0]]): a
    slice of categories. *)
Record t := {
  GetCategory : list Call -> string -> list Category.t + error
}.
End CategoryUseCase.

Module ExpenseHandler.
Record t := {
  categoryUseCase : CategoryUseCase.t;
  createExpenseInternal : list Call -> ExpenseInput.t -> option error
}.
End ExpenseHandler.

(** What a handler reads of its [gin.Context] and of the world around it:
    the path parameter through [strconv.Atoi], the user of the token through
    [GetUserIdByToken] (declared elsewhere in the package; taken to read the
    context only), the clock, and the division of decimals, which rounds to
    the library's precision. *)
Record Env := {
  ParamId : Z + error;
  UserIdByToken : Z + error;
  Now : Time;
  Div : Decimal -> Decimal -> Decimal
}.

Record World := {
  calls : list Call;
  ctx : list CtxCall
}.

Definition start : World := {| calls := []; ctx := [] |}.

Definition Act (A : Type) : Type := World -> A * World.

Definition ret {A : Type} (a : A) : Act A := fun w => (a, w).

Definition bind {A B : Type} (m : Act A) (k : A -> Act B) : Act B :=
  fun w => let (a, w') := m w in k a w'.

Notation "'let*' x ':=' m 'in' k" := (bind m (fun x => k))
  (at level 10, x name, m at level 100, k at level 200).

Definition write (c : CtxCall) : Act unit :=
  fun w => (tt, {| calls := calls w; ctx := ctx w ++ [c] |}).

(** A call on a collaborator: logged, and answered from the calls before it. *)
Definition ask {A : Type} (c : Call) (answer : list Call -> A) : Act A :=
  fun w => (answer (calls w), {| calls := calls w ++ [c]; ctx := ctx w |}).

(** How a handler ends. *)
Inductive Outcome : Type :=
  | Returned
  | Panicked.

Module SavingHandler.
Local Open Scope string_scope.
Local Open Scope Z_scope.

Record t := {
  savingUseCase : SavingUseCase.t;
  expenseHandler : ExpenseHandler.t
}.

Definition abort (code : Z) (fields : list (string * Value)) : Act Outcome :=
  let* _ := write (AbortWithStatusJSON code (H fields)) in ret Returned.

Definition answer (code : Z) (obj : Obj) : Act Outcome :=
  let* _ := write (JSON code obj) in ret Returned.

Definition code_message (code : Z) (m : error_message) : list (string * Value) :=
  [("code", Plain (Int code)); ("message", Plain (Msg m))].

Definition checkUser : Value := Plain (Str "Verifique as informações do usuário logado!").

(** The loop of [Create] over the user's savings: the greatest priority
    above 0, and whether one of them is an emergency fund. *)
Definition scan (list : list Saving.t) : Z * bool :=
  fold_left
    (fun (acc : Z * bool) (s : Saving.t) =>
       let (maxPriority, existEmergencyFund) := acc in
       (if Saving.Priority s >? maxPriority then Saving.Priority s else maxPriority,
        if Saving.IsEmergencyFund s >? 0 then true else existEmergencyFund))
    list (0, false).

(** [Create] from the call of [savingUseCase.Create] on. *)
Definition createSaving (cr : t) (env : Env) (savingRequest : SavingAddRequest.t)
    (saving : Saving.t) : Act Outcome :=
  let* err := ask (CallCreate saving) (fun past => SavingUseCase.Create (savingUseCase cr) past saving) in
  match err with
  | Some _ => abort StatusUnprocessableEntity (code_message StatusUnprocessableEntity ErrCreateSaving)
  | None =>
      let created :=
        answer StatusCreated
          (H [("code", Plain (Int StatusOK));
              ("message", Plain (Str "Caixinha criada com sucesso!"))]) in
      if (SavingAddRequest.ShouldBeExpense savingRequest =? 1)
         && (SavingAddRequest.MonthsToGoal savingRequest >? 0)
      then
        let monthValue :=
          Div env (SavingAddRequest.Goal savingRequest)
            (inject_Z (SavingAddRequest.MonthsToGoal savingRequest)) in
        let* categoryId :=
          ask (CallGetCategory "Caixinha")
            (fun past => CategoryUseCase.GetCategory
                           (ExpenseHandler.categoryUseCase (expenseHandler cr)) past "Caixinha") in
        match categoryId with
        | inr _ =>
            abort StatusUnprocessableEntity
              (code_message StatusUnprocessableEntity ErrCreateExpenseFromSaving)
        | inl [] => ret Panicked   (* categoryId[0]: index out of range *)
        | inl (first :: _) =>
            let expenseInput :=
              {| ExpenseInput.Description := SavingAddRequest.Description savingRequest;
                 ExpenseInput.Value := monthValue;
                 ExpenseInput.MultiplePayments := true;
                 ExpenseInput.NumInstallments := SavingAddRequest.MonthsToGoal savingRequest;
                 ExpenseInput.PaymentDay := 1;
                 ExpenseInput.DueDate := Some (Now env);
                 ExpenseInput.CategoryID := Category.ID first |} in
            let* err :=
              ask (CallCreateExpense expenseInput)
                (fun past => ExpenseHandler.createExpenseInternal (expenseHandler cr)
                               past expenseInput) in
            match err with
            | Some _ =>
                abort StatusUnprocessableEntity
                  (code_message StatusUnprocessableEntity ErrCreateExpenseFromSaving)
            | None => created
            end
        end
      else created
  end.

Definition Create (cr : t) (env : Env) (bound : SavingAddRequest.t + error) : Act Outcome :=
  match bound with
  | inr _ => abort StatusUnprocessableEntity (code_message StatusUnprocessableEntity ErrCreateSaving)
  | inl savingRequest =>
      match UserIdByToken env with
      | inr _ =>
          abort StatusUnprocessableEntity
            (code_message StatusUnprocessableEntity ErrCreateSaving
             ++ [("more_info", checkUser)])%list
      | inl userId =>
          let saving :=
            {| Saving.ID := 0;
               Saving.UserID := userId;
               Saving.Description := SavingAddRequest.Description savingRequest;
               Saving.Goal := SavingAddRequest.Goal savingRequest;
               Saving.Accumulated := SavingAddRequest.Accumulated savingRequest;
               Saving.IsEmergencyFund := SavingAddRequest.IsEmergencyFund savingRequest;
               Saving.Priority := 1 |} in
          let* list :=
            ask (CallGetAllSavings userId)
              (fun past => SavingUseCase.GetAllSavings (savingUseCase cr) past userId) in
          match list with
          | inl ((_ :: _) as list) =>
              let (maxPriority, existEmergencyFund) := scan list in
              let saving := Saving.setPriority saving (GoInt.wrap (maxPriority + 1)) in
              if (Saving.IsEmergencyFund saving =? 1) && existEmergencyFund
              then abort StatusUnprocessableEntity
                     (code_message StatusUnprocessableEntity ErrCreateDuplicateEmergencyFund)
              else createSaving cr env savingRequest saving
          | _ => createSaving cr env savingRequest saving
          end
      end
  end.

Definition FindAll (cr : t) (env : Env) : Act Outcome :=
  match UserIdByToken env with
  | inr _ =>
      abort StatusUnprocessableEntity
        (code_message StatusUnprocessableEntity ErrCreateSaving
         ++ [("more_info", checkUser)])%list
  | inl userId =>
      let* savings :=
        ask (CallGetAllSavings userId)
          (fun past => SavingUseCase.GetAllSavings (savingUseCase cr) past userId) in
      match savings with
      | inr _ =>
          abort StatusNotFound
            [("code", Plain (Int StatusNotFound));
             ("message", Plain (Str "Erro ao encontrar as caixinhas"))]
      | inl [] => abort StatusNotFound (code_message StatusNotFound ErrFindSaving)
      | inl savings => answer StatusOK (SavingList savings)
      end
  end.

Definition badId : list (string * Value) :=
  [("code", Plain (Int StatusBadRequest));
   ("message", Plain (Str "Erro ao identificar o id da caixinha"))].

Definition FindByID (cr : t) (env : Env) : Act Outcome :=
  match ParamId env with
  | inr _ => abort StatusBadRequest badId
  | inl id =>
      let* saving :=
        ask (CallGetSaving id) (fun past => SavingUseCase.GetSaving (savingUseCase cr) past id) in
      match saving with
      | inr _ =>
          abort StatusNotFound
            [("code", Plain (Int StatusNotFound));
             ("message", Plain (Str "Erro ao encontrar a caixinha"))]
      | inl saving => answer StatusOK (H [("id", Plain (Int (Saving.ID saving)))])
      end
  end.

Definition Update (cr : t) (env : Env) (bound : Saving.t + error) : Act Outcome :=
  match ParamId env with
  | inr _ => abort StatusBadRequest badId
  | inl id =>
      match bound with
      | inr _ =>
          abort StatusUnprocessableEntity (code_message StatusUnprocessableEntity ErrUpdateSaving)
      | inl saving =>
          let saving := Saving.setID saving id in
          let* err :=
            ask (CallUpdate saving)
              (fun past => SavingUseCase.Update (savingUseCase cr) past saving) in
          match err with
          | Some _ => abort StatusConflict (code_message StatusConflict ErrUpdateSaving)
          | None =>
              answer StatusOK
                (H [("message", Plain (Str "Caixinha editada com sucesso!"));
                    ("data", Nested [("id", Int (Saving.ID saving))])])
          end
      end
  end.

(** The loop of [Delete] over [allSavings]. The loop variable [saving] is
    given its priority less one, and then [savingToDelete] is what is passed
    to [Update]; a failed [Update] is logged and the loop goes on. *)
Fixpoint renumber (cr : t) (savingToDelete : Saving.t) (deletedPriority : Z)
    (allSavings : list Saving.t) : Act unit :=
  match allSavings with
  | [] => ret tt
  | saving :: rest =>
      if Saving.Priority saving >? deletedPriority then
        let saving := Saving.setPriority saving (GoInt.wrap (Saving.Priority saving - 1)) in
        let* err :=
          ask (CallUpdate savingToDelete)
            (fun past => SavingUseCase.Update (savingUseCase cr) past savingToDelete) in
        renumber cr savingToDelete deletedPriority rest
      else renumber cr savingToDelete deletedPriority rest
  end.

Definition Delete (cr : t) (env : Env) : Act Outcome :=
  match ParamId env with
  | inr _ => abort StatusBadRequest badId
  | inl id =>
      match UserIdByToken env with
      | inr _ =>
          abort StatusUnprocessableEntity
            (code_message StatusUnprocessableEntity ErrDeleteSaving
             ++ [("more_info", checkUser)])%list
      | inl userId =>
          let* savingToDelete :=
            ask (CallGetSaving id)
              (fun past => SavingUseCase.GetSaving (savingUseCase cr) past id) in
          match savingToDelete with
          | inr _ => abort StatusNotFound (code_message StatusNotFound ErrFindSaving)
          | inl savingToDelete =>
              if negb (Saving.UserID savingToDelete =? userId) then
                abort StatusUnprocessableEntity
                  [("code", Plain (Int StatusUnprocessableEntity));
                   ("message", Plain (Str "Erro ao apagar a caixinha com esse usuário"))]
              else
                let deletedPriority := Saving.Priority savingToDelete in
                let* allSavings :=
                  ask (CallGetAllSavings userId)
                    (fun past => SavingUseCase.GetAllSavings (savingUseCase cr) past userId) in
                match allSavings with
                | inr _ =>
                    abort StatusUnprocessableEntity
                      (code_message StatusUnprocessableEntity ErrDeleteSaving)
                | inl allSavings =>
                    let* err :=
                      ask (CallDelete savingToDelete)
                        (fun past => SavingUseCase.Delete (savingUseCase cr) past savingToDelete) in
                    match err with
                    | Some _ =>
                        abort StatusUnprocessableEntity
                          (code_message StatusUnprocessableEntity ErrDeleteSaving)
                    | None =>
                        let* _ := renumber cr savingToDelete deletedPriority allSavings in
                        answer StatusOK
                          (H [("code", Plain (Int StatusOK));
                              ("message", Plain (Str "Caixinha deletada com sucesso!"))])
                    end
                end
          end
      end
  end.
End SavingHandler.

(* ----------------------------------------------------------------- *)
(** *** Collaborators to run against *)

(** A saving use case over a fixed list of savings, where nothing fails. *)
Definition fixedStore (savings : list Saving.t) : SavingUseCase.t :=
  {| SavingUseCase.GetAllSavings := fun _ userId =>
       inl (filter (fun s => (Saving.UserID s =? userId)%Z) savings);
     SavingUseCase.Create := fun _ _ => None;
     SavingUseCase.GetSaving := fun _ id =>
       match find (fun s => (Saving.ID s =? id)%Z) savings with
       | Some s => inl s
       | None => inr (Err "record not found")
       end;
     SavingUseCase.Update := fun _ _ => None;
     SavingUseCase.Delete := fun _ _ => None |}.

(** As [store], but the list of savings cannot be read. *)
Definition unreadable (store : SavingUseCase.t) : SavingUseCase.t :=
  {| SavingUseCase.GetAllSavings := fun _ _ => inr (Err "connection refused");
     SavingUseCase.Create := SavingUseCase.Create store;
     SavingUseCase.GetSaving := SavingUseCase.GetSaving store;
     SavingUseCase.Update := SavingUseCase.Update store;
     SavingUseCase.Delete := SavingUseCase.Delete store |}.

(** An expense handler with the given categories, whose expense creation
    fails or not. *)
Definition expenses (categories : list Category.t) (fails : bool) : ExpenseHandler.t :=
  {| ExpenseHandler.categoryUseCase :=
       {| CategoryUseCase.GetCategory := fun _ _ => inl categories |};
     ExpenseHandler.createExpenseInternal := fun _ _ =>
       if fails then Some (Err "expense not created") else None |}.

Definition handlerOver (savings : list Saving.t) (categories : list Category.t)
  : SavingHandler.t :=
  {| SavingHandler.savingUseCase := fixedStore savings;
     SavingHandler.expenseHandler := expenses categories false |}.

(** The context of user [userId] asking about saving [id]. *)
Definition envOf (id userId : Z) : Env :=
  {| ParamId := inl id; UserIdByToken := inl userId; Now := 0%Z; Div := Qdiv |}.

(** Two savings of user 7, the first an emergency fund, and one of user 8. *)
Definition emergency : Saving.t :=
  {| Saving.ID := 1; Saving.UserID := 7; Saving.Description := "reserva";
     Saving.Goal := 5000; Saving.Accumulated := 100;
     Saving.IsEmergencyFund := 1; Saving.Priority := 1 |}.

Definition travel : Saving.t :=
  {| Saving.ID := 2; Saving.UserID := 7; Saving.Description := "viagem";
     Saving.Goal := 3000; Saving.Accumulated := 0;
     Saving.IsEmergencyFund := 0; Saving.Priority := 2 |}.

Definition car : Saving.t :=
  {| Saving.ID := 3; Saving.UserID := 8; Saving.Description := "carro";
     Saving.Goal := 40000; Saving.Accumulated := 0;
     Saving.IsEmergencyFund := 0; Saving.Priority := 1 |}.

Definition bike : SavingAddRequest.t :=
  {| SavingAddRequest.Description := "bicicleta";
     SavingAddRequest.Goal := 1200; SavingAddRequest.Accumulated := 0;
     SavingAddRequest.IsEmergencyFund := 0;
     SavingAddRequest.ShouldBeExpense := 1; SavingAddRequest.MonthsToGoal := 12 |}.

(** A request for one more emergency fund. *)
Definition secondFund : SavingAddRequest.t :=
  {| SavingAddRequest.Description := "outra reserva";
     SavingAddRequest.Goal := 100; SavingAddRequest.Accumulated := 0;
     SavingAddRequest.IsEmergencyFund := 1;
     SavingAddRequest.ShouldBeExpense := 0; SavingAddRequest.MonthsToGoal := 0 |}.

(** A handler whose list of savings cannot be read. *)
Definition blindHandler : SavingHandler.t :=
  {| SavingHandler.savingUseCase := unreadable (fixedStore [emergency]);
     SavingHandler.expenseHandler := expenses [] false |}.

(** The saving [Create] makes of [bike] for user 7, who has [emergency] and
    [travel]. *)
Definition bikeSaving : Saving.t :=
  {| Saving.ID := 0; Saving.UserID := 7; Saving.Description := "bicicleta";
     Saving.Goal := 1200; Saving.Accumulated := 0;
     Saving.IsEmergencyFund := 0; Saving.Priority := 3 |}.

(** The expense [Create] asks for with [bike], in category 4. *)
Definition bikeExpense : ExpenseInput.t :=
  {| ExpenseInput.Description := "bicicleta";
     ExpenseInput.Value := Qdiv 1200 (inject_Z 12);
     ExpenseInput.MultiplePayments := true;
     ExpenseInput.NumInstallments := 12;
     ExpenseInput.PaymentDay := 1;
     ExpenseInput.DueDate := Some 0%Z;
     ExpenseInput.CategoryID := 4 |}.

(** A context whose token names no user. *)
Definition anonymous (id : Z) : Env :=
  {| ParamId := inl id; UserIdByToken := inr (Err "invalid token");
     Now := 0%Z; Div := Qdiv |}.
End Savings.

(* ================================================================= *)
(** ** Facts about the arithmetic *)

Module GoIntFacts.
Local Open Scope Z_scope.

Lemma wrap_id (z : Z) : GoInt.InRange z -> GoInt.wrap z = z.
Proof.
  unfold GoInt.InRange, GoInt.wrap. intros Hz.
  rewrite Z.mod_small; lia.
Qed.

Lemma mul_id (a b : Z) : GoInt.InRange (a * b) -> GoInt.mul a b = a * b.
Proof. apply wrap_id. Qed.

Lemma quo_12 (a : Z) : 0 <= a < 2 ^ 63 -> GoInt.quo a 12 = a / 12.
Proof.
  intros Ha. unfold GoInt.quo.
  rewrite Z.quot_div_nonneg by lia.
  apply wrap_id. unfold GoInt.InRange.
  assert (0 <= a / 12 <= a).
  { split; [apply Z.div_pos; lia | apply Z.div_le_upper_bound; lia]. }
  lia.
Qed.
End GoIntFacts.

Module ExactFacts.
Local Open Scope R_scope.

Lemma Zfloor_IZR (n : Z) : Zfloor (IZR n) = n.
Proof. apply Zfloor_eq. lra. Qed.

Lemma Floor_IZR (n : Z) : ExactOps.Floor (IZR n) = IZR n.
Proof. unfold ExactOps.Floor. now rewrite Zfloor_IZR. Qed.

(** Raising to [float64(n)] is the integer power. *)
Lemma Pow_of_int (x : R) (n : Z) : ExactOps.Pow x (IZR n) = powerRZ x n.
Proof.
  unfold ExactOps.Pow. rewrite Zfloor_IZR.
  destruct (Req_dec_T (IZR n) (IZR n)) as [_ | Hne]; [reflexivity | now destruct Hne].
Qed.

Lemma Pow_of_nat (x : R) (n : Z) : (0 <= n)%Z -> ExactOps.Pow x (IZR n) = x ^ Z.to_nat n.
Proof.
  intros Hn. rewrite Pow_of_int.
  rewrite <- (Z2Nat.id n) at 1 by exact Hn.
  now rewrite <- pow_powerRZ.
Qed.

Lemma Round_IZR (n : Z) : ExactOps.Round (IZR n) = IZR n.
Proof.
  unfold ExactOps.Round. destruct (Rle_dec 0 (IZR n)).
  - f_equal. apply Zfloor_eq. lra.
  - assert (Hf : Zfloor (- IZR n + / 2) = (- n)%Z).
    { apply Zfloor_eq. rewrite opp_IZR. lra. }
    rewrite Hf, opp_IZR. lra.
Qed.

Lemma Round_nonneg (x : R) : 0 <= x -> 0 <= ExactOps.Round x.
Proof.
  intros Hx. unfold ExactOps.Round. destruct (Rle_dec 0 x); [| contradiction].
  apply IZR_le. apply Zfloor_lub. simpl. lra.
Qed.

Lemma Round_nonpos (x : R) : x < 0 -> ExactOps.Round x <= 0.
Proof.
  intros Hx. unfold ExactOps.Round. destruct (Rle_dec 0 x); [lra |].
  assert (0 <= IZR (Zfloor (- x + / 2))); [| lra].
  apply IZR_le. apply Zfloor_lub. simpl. lra.
Qed.

Lemma Round_le (x y : R) : x <= y -> ExactOps.Round x <= ExactOps.Round y.
Proof.
  intros Hxy.
  destruct (Rle_dec 0 x) as [Hx | Hx]; destruct (Rle_dec 0 y) as [Hy | Hy].
  - unfold ExactOps.Round.
    destruct (Rle_dec 0 x); [| contradiction]. destruct (Rle_dec 0 y); [| contradiction].
    apply IZR_le, Zfloor_le. lra.
  - lra.
  - apply Rle_trans with 0; [apply Round_nonpos | apply Round_nonneg]; lra.
  - unfold ExactOps.Round.
    destruct (Rle_dec 0 x); [contradiction |]. destruct (Rle_dec 0 y); [contradiction |].
    apply Ropp_le_contravar, IZR_le, Zfloor_le. lra.
Qed.

(** The constants of the handlers, read exactly. *)
Lemma Q2R_0 : Q2R 0 = 0.
Proof. unfold Q2R. simpl. lra. Qed.

Lemma Q2R_1 : Q2R 1 = 1.
Proof. unfold Q2R. simpl. lra. Qed.

Lemma Q2R_12 : Q2R 12 = 12.
Proof. unfold Q2R. simpl. lra. Qed.

Lemma Q2R_100 : Q2R 100 = 100.
Proof. unfold Q2R. simpl. lra. Qed.

Lemma Q2R_participation : Q2R (CDI_PERCENT / 100) = 1.
Proof. unfold Q2R. simpl. lra. Qed.

Lemma Q2R_seven_tenths : Q2R 0.7 = 0.7.
Proof. unfold Q2R. simpl. lra. Qed.

Lemma Q2R_MONTH_TAX_DEFAULT : Q2R MONTH_TAX_DEFAULT = 0.005.
Proof. unfold Q2R. simpl. lra. Qed.

Lemma Q2R_SELIC_LESS_THAN_EIGHT : Q2R SELIC_LESS_THAN_EIGHT = 0.085.
Proof. unfold Q2R. simpl. lra. Qed.

Lemma Q2R_UNTIL_180_DAYS : Q2R UNTIL_180_DAYS = 22.5.
Proof. unfold Q2R. simpl. lra. Qed.

Lemma Q2R_UNTIL_360_DAYS : Q2R UNTIL_360_DAYS = 20.
Proof. unfold Q2R. simpl. lra. Qed.

Lemma Q2R_UNTIL_720_DAYS : Q2R UNTIL_720_DAYS = 17.5.
Proof. unfold Q2R. simpl. lra. Qed.

Lemma Q2R_MORE_THAN_720_DAYS : Q2R MORE_THAN_720_DAYS = 15.
Proof. unfold Q2R. simpl. lra. Qed.

Create Rewrite HintDb constants.
#[global] Hint Rewrite Q2R_0 Q2R_1 Q2R_12 Q2R_100 Q2R_participation Q2R_seven_tenths
  Q2R_MONTH_TAX_DEFAULT Q2R_SELIC_LESS_THAN_EIGHT Q2R_UNTIL_180_DAYS Q2R_UNTIL_360_DAYS
  Q2R_UNTIL_720_DAYS Q2R_MORE_THAN_720_DAYS : constants.

Lemma round2_unfold (x : R) : round2 (F := Exact) x = ExactOps.Round (x * 100) / 100.
Proof. unfold round2. simpl. now rewrite Q2R_100. Qed.

Lemma round2_le (x y : R) : x <= y -> round2 (F := Exact) x <= round2 (F := Exact) y.
Proof.
  intros Hxy. rewrite !round2_unfold.
  assert (ExactOps.Round (x * 100) <= ExactOps.Round (y * 100)) by (apply Round_le; lra).
  lra.
Qed.

(** A number of hundredths is left as it is. *)
Lemma round2_cents (n : Z) : round2 (F := Exact) (IZR n / 100) = IZR n / 100.
Proof.
  rewrite round2_unfold. replace (IZR n / 100 * 100) with (IZR n) by lra.
  now rewrite Round_IZR.
Qed.

End ExactFacts.

(* ================================================================= *)
(** ** How the simulations and the monthly loop run *)

Section Runs.
Context {F : Float64} (rh : RendimentsHandler).

Local Abbreviation lastMetric := (@GetLastMetric (metricRepository rh)).

Local Abbreviation abortFindMetric :=
  (AbortWithStatusJSON StatusInternalServerError
     (gin_H StatusInternalServerError ErrFindMetric)).

Lemma SimulateCDB_fetched (request : SimulationRequest F) (w : World F) (metric : Metric) :
  lastMetric (fetched w) CDI_TYPE = inl metric ->
  SimulateCDB rh request w
  = (CDB.result metric request, None, {| fetched := S (fetched w); ctx := ctx w |}).
Proof.
  intros Hm. unfold SimulateCDB, bind, fetch, ret.
  now rewrite Hm.
Qed.

Lemma SimulateCDB_failed (request : SimulationRequest F) (w : World F) (err : error) :
  lastMetric (fetched w) CDI_TYPE = inr err ->
  SimulateCDB rh request w
  = (const 0, None, {| fetched := S (fetched w); ctx := ctx w ++ [abortFindMetric] |}).
Proof.
  intros Hm. unfold SimulateCDB, bind, fetch, ret, call_ctx.
  now rewrite Hm.
Qed.

(** The [error] of [SimulateCDB] is [nil] on both paths. *)
Lemma SimulateCDB_nil (request : SimulationRequest F) (w : World F) :
  snd (fst (SimulateCDB rh request w)) = None.
Proof.
  unfold SimulateCDB, bind, fetch, ret, call_ctx.
  now destruct (@GetLastMetric (metricRepository rh) (fetched w) CDI_TYPE).
Qed.

Lemma SimulatePoupancaMonthly_fetched (request : SimulationRequest F) (w : World F)
    (metric : Metric) :
  lastMetric (fetched w) SELIC = inl metric ->
  SimulatePoupancaMonthly rh request w
  = (PoupancaMonthly.result metric request, None,
     {| fetched := S (fetched w); ctx := ctx w |}).
Proof.
  intros Hm. unfold SimulatePoupancaMonthly, bind, fetch, ret.
  now rewrite Hm.
Qed.

Lemma SimulatePoupancaMonthly_nil (request : SimulationRequest F) (w : World F) :
  snd (fst (SimulatePoupancaMonthly rh request w)) = None.
Proof.
  unfold SimulatePoupancaMonthly, bind, fetch, ret, call_ctx.
  now destruct (@GetLastMetric (metricRepository rh) (fetched w) SELIC).
Qed.

(** The loop is one call of [SimulateCDB] per index, in order, each value
    added to [cdbFinalValue]; its [continue] is never taken. *)
Lemma monthlyLoop_forEach (n : nat) :
  forall (i : Z) (request : SimulationRequest F) (cdbFinalValue : float64) (w : World F),
    monthlyLoop rh n i request cdbFinalValue w
    = let (cdbs, w') := forEach (fun j => SimulateCDB rh (setMonths request j)) (upto i n) w in
      (fold_left fadd (map fst cdbs) cdbFinalValue, w').
Proof.
  induction n as [| n IH]; intros i request cdbFinalValue w.
  - reflexivity.
  - cbn [monthlyLoop upto forEach]. unfold bind at 1 2.
    pose proof (SimulateCDB_nil (setMonths request i) w) as Hnil.
    destruct (SimulateCDB rh (setMonths request i) w) as [[cdbPerMonth err] w1].
    cbn [fst snd] in Hnil. subst err.
    rewrite IH.
    change (fun j => SimulateCDB rh (setMonths (setMonths request i) j))
      with (fun j => SimulateCDB rh (setMonths request j)).
    unfold bind, ret.
    destruct (forEach (fun j => SimulateCDB rh (setMonths request j)) (upto (i + 1) n) w1)
      as [cdbs w2].
    reflexivity.
Qed.

(** The loop indices are [i, i+1, ..., i+n-1]. *)
Lemma In_upto (n : nat) : forall i j : Z, In j (upto i n) <-> (i <= j < i + Z.of_nat n)%Z.
Proof.
  induction n as [| n IH]; intros i j.
  - cbn. lia.
  - cbn [upto In]. rewrite IH. lia.
Qed.

Lemma In_indices (months j : Z) : In j (indices months) <-> (0 <= j < months)%Z.
Proof. unfold indices. rewrite In_upto. lia. Qed.

Lemma upto_length (n : nat) : forall i, List.length (upto i n) = n.
Proof. induction n as [| n IH]; intros i; cbn; [reflexivity | now rewrite IH]. Qed.

Lemma SimulateCDB_run (request : SimulationRequest F) (w : World F) :
  SimulateCDB rh request w
  = (cdbValue rh (fetched w) request, None,
     {| fetched := S (fetched w); ctx := ctx w ++ cdbWrites rh (fetched w) |}).
Proof.
  unfold SimulateCDB, cdbValue, cdbWrites, bind, fetch, ret, call_ctx.
  destruct (@GetLastMetric (metricRepository rh) (fetched w) CDI_TYPE).
  - cbn. now rewrite app_nil_r.
  - reflexivity.
Qed.

Lemma forEach_SimulateCDB (f : Z -> SimulationRequest F) (n : nat) :
  forall (i : Z) (w : World F),
    forEach (fun j => SimulateCDB rh (f j)) (upto i n) w
    = (map (fun k => (cdbValue rh (fetched w + k) (f (i + Z.of_nat k)%Z), None)) (seq 0 n),
       {| fetched := fetched w + n;
          ctx := ctx w ++ flat_map (fun k => cdbWrites rh (fetched w + k)) (seq 0 n) |}).
Proof.
  induction n as [| n IH]; intros i w.
  - cbn. unfold ret. rewrite app_nil_r, Nat.add_0_r. now destruct w.
  - cbn [upto forEach]. unfold bind at 1. rewrite SimulateCDB_run.
    unfold bind at 1. rewrite IH. unfold ret. cbn [fetched ctx].
    change (seq 0 (S n)) with (0%nat :: seq 1 n).
    rewrite <- seq_shift. cbn [map flat_map].
    rewrite map_map, Nat.add_0_r, Z.add_0_r, <- app_assoc.
    rewrite flat_map_concat_map, (flat_map_concat_map _ (map S _)), map_map.
    assert (Hvalues :
      map (fun k => (cdbValue rh (S (fetched w) + k) (f (i + 1 + Z.of_nat k)%Z), @None error))
          (seq 0 n)
      = map (fun k => (cdbValue rh (fetched w + S k) (f (i + Z.of_nat (S k))%Z), None))
          (seq 0 n)).
    { apply map_ext. intros k.
      replace (S (fetched w) + k) with (fetched w + S k) by lia.
      replace (i + 1 + Z.of_nat k)%Z with (i + Z.of_nat (S k))%Z by lia.
      reflexivity. }
    assert (Hwrites :
      map (fun k => cdbWrites (F := F) rh (S (fetched w) + k)) (seq 0 n)
      = map (fun k => cdbWrites rh (fetched w + S k)) (seq 0 n)).
    { apply map_ext. intros k. now replace (S (fetched w) + k) with (fetched w + S k) by lia. }
    rewrite Hvalues, Hwrites.
    now replace (S (fetched w) + n) with (fetched w + S n) by lia.
Qed.

(** [SimulateMonthlyRendiments] on a request that binds, as a straight line:
    the engine once per month index, the savings annuity, the extra run on
    the accumulated amount when there is one, and the answer. No failure
    branch of the handler is ever taken. *)
Lemma SimulateMonthlyRendiments_run (request : SimulationRequest F) (w : World F) :
  let (cdbs, w1) :=
    forEach (fun i => SimulateCDB rh (perMonth request i)) (indices (Months request)) w in
  let (poup, w2) := SimulatePoupancaMonthly rh (perMonth request (Months request)) w1 in
  SimulateMonthlyRendiments rh (inl request) w
  = match Accumulated request with
    | None => (tt, answered w2 (sum (map fst cdbs)) (fst poup))
    | Some accumulated =>
        let (acc, w3) :=
          SimulateCDB rh {| InitialValue := accumulated;
                            Months := Months request;
                            Accumulated := Some accumulated |} w2 in
        (tt, answered w3 (sum (map fst cdbs) + fst acc)%f64 (fst poup))
    end.
Proof.
  unfold SimulateMonthlyRendiments.
  unfold bind at 1. rewrite monthlyLoop_forEach.
  change (forEach _ (upto 0 _) w)
    with (forEach (fun i => SimulateCDB rh (perMonth request i)) (indices (Months request)) w).
  destruct (forEach (fun i => SimulateCDB rh (perMonth request i)) (indices (Months request)) w)
    as [cdbs w1].
  fold (sum (map fst cdbs)).
  change (setMonths (setInitialValue request _) _) with (perMonth request (Months request)).
  unfold bind at 1.
  pose proof (SimulatePoupancaMonthly_nil (perMonth request (Months request)) w1) as Hnil.
  destruct (SimulatePoupancaMonthly rh (perMonth request (Months request)) w1)
    as [[poup err] w2].
  cbn [fst snd] in Hnil. subst err.
  unfold bind at 1, ret at 1.
  cbn [Accumulated perMonth].
  destruct (Accumulated request) as [accumulated |] eqn:Hacc.
  - unfold bind.
    change (setInitialValue (perMonth request (Months request)) accumulated)
      with {| InitialValue := accumulated; Months := Months request;
              Accumulated := Accumulated request |}.
    rewrite Hacc.
    match goal with |- context [SimulateCDB rh ?r w2] =>
      pose proof (SimulateCDB_nil r w2) as Hnil; destruct (SimulateCDB rh r w2) as [[acc err] w3]
    end.
    cbn [fst snd] in Hnil. subst err. reflexivity.
  - reflexivity.
Qed.

(** The same for a fresh request without an accumulated amount, when the
    SELIC metric is fetched: what is written is the aborts of the failed
    CDI fetches, then the answer. *)
Lemma SimulateMonthlyRendiments_fresh (request : SimulationRequest F) (selic : Metric) :
  Accumulated request = None ->
  lastMetric (Z.to_nat (Months request)) SELIC = inl selic ->
  snd (SimulateMonthlyRendiments rh (inl request) start)
  = {| fetched := S (Z.to_nat (Months request));
       ctx := flat_map (fun k => cdbWrites rh k) (seq 0 (Z.to_nat (Months request)))
              ++ [JSON StatusOK
                    (Simulations
                       {| CdbValue :=
                            round2 (sum (map (fun k => cdbValue rh k
                                                          (perMonth request (Z.of_nat k)))
                                             (seq 0 (Z.to_nat (Months request)))));
                          PoupancaValue :=
                            PoupancaMonthly.result selic
                              (perMonth request (Months request)) |})] |}.
Proof.
  intros Hacc Hselic.
  pose proof (SimulateMonthlyRendiments_run request start) as Hrun.
  unfold indices in Hrun. rewrite forEach_SimulateCDB in Hrun.
  cbn [fetched ctx start Nat.add app] in Hrun.
  rewrite (SimulatePoupancaMonthly_fetched _ _ selic) in Hrun by exact Hselic.
  rewrite Hacc in Hrun. rewrite Hrun. cbn [snd fst fetched ctx answered].
  rewrite map_map. cbn [fst]. reflexivity.
Qed.

End Runs.

(* ================================================================= *)
(** ** The day counts and the tax tier of [SimulateCDB] *)

Section DayCounts.
Context {F : Float64}.
Local Open Scope Z_scope.

(** For a month count that does not overflow, [businessDays] is [21 * months]
    and [totalDays] is 365 for each whole year in [months]. *)
Lemma businessDays_in_range (request : SimulationRequest F) :
  0 <= Months request -> Months request * 365 < 2 ^ 63 ->
  CDB.businessDays request = 21 * Months request.
Proof.
  intros Hlo Hhi. unfold CDB.businessDays, CDB.months.
  change (int_const BUSINESS_DAYS) with 21.
  rewrite GoIntFacts.mul_id; [lia | unfold GoInt.InRange; lia].
Qed.

Lemma totalDays_in_range (request : SimulationRequest F) :
  0 <= Months request -> Months request * 365 < 2 ^ 63 ->
  CDB.totalDays request = 365 * (Months request / 12).
Proof.
  intros Hlo Hhi. unfold CDB.totalDays, CDB.months.
  change (int_const 12) with 12. change ONE_YEAR_DAYS with 365.
  rewrite GoIntFacts.quo_12 by lia.
  assert (0 <= Months request / 12 <= Months request).
  { split; [apply Z.div_pos; lia | apply Z.div_le_upper_bound; lia]. }
  rewrite GoIntFacts.mul_id; [lia | unfold GoInt.InRange; lia].
Qed.

(** [totalDays] is a multiple of 365, so it is never in [[180, 360)]: the
    second case of the switch, [UNTIL_360_DAYS], is never taken. *)
Lemma second_tier_never_taken (request : SimulationRequest F) :
  0 <= Months request -> Months request * 365 < 2 ^ 63 ->
  CDB.totalDays request < 180 \/ 360 <= CDB.totalDays request.
Proof.
  intros Hlo Hhi. rewrite totalDays_in_range by assumption.
  assert (0 <= Months request / 12) by (apply Z.div_pos; lia).
  lia.
Qed.
End DayCounts.

(** Past that range the product wraps: the first month count whose
    [businessDays] is negative. *)
Example businessDays_wraps :
  forall F : Float64,
    CDB.businessDays (mkRequest F (const 1000) 439208192231179801 None)
    = (- 9223372036854775795)%Z.
Proof. reflexivity. Qed.

(** C1 (the code departs from the claim). [totalDays] is computed with the
    truncating division of integers: for a 6-month simulation it is 0, where
    the specification's real-number formula gives 182.5; the tier selected
    is then 22.5%, the tier of the first 180 days. *)
Theorem C1_totalDays_of_six_months_is_zero :
  forall (F : Float64) (initialValue : float64) (accumulated : option float64),
    let request := mkRequest F initialValue 6 accumulated in
    CDB.totalDays request = 0%Z
    /\ Spec.totalCalendarDays 6 = 182.5%R
    /\ CDB.taxRate request = const UNTIL_180_DAYS.
Proof.
  intros F initialValue accumulated request.
  split; [reflexivity | split; [| reflexivity]].
  unfold Spec.totalCalendarDays. lra.
Qed.

(** C2 (the code departs from the claim). When the rate cannot be fetched,
    [SimulateCDB] and [SimulatePoupanca] return the value 0 with a nil
    error; [SimulateAllRendiments] then never sees a failure and answers
    200 with both values 0, after the two aborts written by the
    simulations. *)
Theorem C2_unavailable_rate_returns_zero_and_nil :
  forall (F : Float64) (request : SimulationRequest F) (w : World F),
    let rh := handlerOf unavailable in
    let abort := AbortWithStatusJSON StatusInternalServerError
                   (gin_H StatusInternalServerError ErrFindMetric) in
    fst (SimulateCDB rh request w) = (const 0, None)
    /\ fst (SimulatePoupanca rh request w) = (const 0, None)
    /\ snd (SimulateAllRendiments rh (inl request) start)
       = {| fetched := 2;
            ctx := [abort; abort;
                    JSON StatusOK
                      (Simulations {| CdbValue := const 0; PoupancaValue := const 0 |})] |}.
Proof.
  intros F request w rh abort. repeat split.
Qed.

(* ----------------------------------------------------------------- *)

Lemma taxRate_schedule (request : SimulationRequest Exact) :
  CDB.taxRate request = Spec.taxRate (IZR (CDB.totalDays request)).
Proof.
  unfold CDB.taxRate, Spec.taxRate, Spec.taxTable, Spec.lookup, Spec.lastTier.
  set (d := CDB.totalDays request).
  destruct (Z.ltb_spec d 180) as [H180 | H180].
  { destruct (Rlt_dec (IZR d) 180) as [_ | Hn]; [| destruct Hn; now apply IZR_lt].
    unfold UNTIL_180_DAYS. simpl. unfold Q2R. simpl. lra. }
  destruct (Rlt_dec (IZR d) 180) as [Hlt | _]; [apply lt_IZR in Hlt; lia |].
  destruct (Z.ltb_spec d 360) as [H360 | H360].
  { destruct (Rlt_dec (IZR d) 360) as [_ | Hn]; [| destruct Hn; now apply IZR_lt].
    unfold UNTIL_360_DAYS. simpl. unfold Q2R. simpl. lra. }
  destruct (Rlt_dec (IZR d) 360) as [Hlt | _]; [apply lt_IZR in Hlt; lia |].
  destruct (Z.ltb_spec d 720) as [H720 | H720].
  { destruct (Rlt_dec (IZR d) 720) as [_ | Hn]; [| destruct Hn; now apply IZR_lt].
    unfold UNTIL_720_DAYS. simpl. unfold Q2R. simpl. lra. }
  destruct (Rlt_dec (IZR d) 720) as [Hlt | _]; [apply lt_IZR in Hlt; lia |].
  unfold MORE_THAN_720_DAYS. simpl. unfold Q2R. simpl. lra.
Qed.

(** C3, as the claim states it, fails at its own example: 12 months is 365
    days, which is not below 360, so the tier is not 20%. *)
Lemma C3_twelve_months_is_not_the_20_tier :
  CDB.taxRate (mkRequest Exact 1000%R 12 None) <> 20%R.
Proof.
  change (Q2R UNTIL_720_DAYS <> 20%R).
  unfold UNTIL_720_DAYS, Q2R. simpl. lra.
Qed.

(** C3 (amended). The tax rate is read off the four-tier schedule at
    [totalDays], each upper bound exclusive; for 12 months [totalDays] is
    365 and the tier is 17.5%. *)
Theorem C3_tax_tier_schedule :
  (forall request : SimulationRequest Exact,
     CDB.taxRate request = Spec.taxRate (IZR (CDB.totalDays request)))
  /\ (forall d : R,
        Spec.taxRate d
        = if Rlt_dec d 180 then 22.5 else
          if Rlt_dec d 360 then 20 else
          if Rlt_dec d 720 then 17.5 else 15)%R
  /\ (forall (initialValue : R) (accumulated : option R),
        let request := mkRequest Exact initialValue 12 accumulated in
        CDB.totalDays request = 365%Z /\ CDB.taxRate request = 17.5%R).
Proof.
  split; [exact taxRate_schedule | split].
  - intros d. reflexivity.
  - intros initialValue accumulated request. split; [reflexivity |].
    change (Q2R UNTIL_720_DAYS = 17.5%R).
    unfold UNTIL_720_DAYS, Q2R. simpl. lra.
Qed.

(* ================================================================= *)
(** ** The compounding of [SimulateCDB], in exact arithmetic *)

Section Compounding.
Variable metric : Metric.
Variable request : SimulationRequest Exact.
Local Open Scope R_scope.

Lemma adjustedDailyCdi_exact :
  CDB.adjustedDailyCdi (F := Exact) metric = Q2R (Value metric) / 100.
Proof.
  unfold CDB.adjustedDailyCdi, CDB.dailyCdi. cbn [fmul fdiv const InexactFloat64 Exact].
  autorewrite with constants. lra.
Qed.

Lemma grossAmount_exact :
  (0 <= Months request)%Z -> (Months request * 365 < 2 ^ 63)%Z ->
  CDB.grossAmount metric request
  = IZR (Zfloor (InitialValue request))
    * (1 + Q2R (Value metric) / 100) ^ Z.to_nat (21 * Months request).
Proof.
  intros Hlo Hhi. unfold CDB.grossAmount, CDB.initialValue.
  rewrite businessDays_in_range by assumption.
  cbn [fmul fadd const of_int Floor Pow Exact].
  rewrite ExactFacts.Pow_of_nat by lia.
  rewrite adjustedDailyCdi_exact. autorewrite with constants. reflexivity.
Qed.

Lemma result_exact :
  CDB.result metric request
  = round2 (F := Exact)
      (CDB.grossAmount metric request
       - (CDB.grossAmount metric request - InitialValue request)
         * CDB.taxRate request / 100).
Proof.
  unfold CDB.result, round2, CDB.finalAmount, CDB.taxDiscount, CDB.profit, CDB.initialValue.
  cbn [fmul fdiv fsub const Round Exact]. autorewrite with constants. reflexivity.
Qed.
End Compounding.

(** C6. [SimulateCDB] compounds the floored principal over [businessDays]
    periods, takes the profit against the principal as given, not floored,
    and returns the compounded amount less the tax on that profit, rounded
    to two decimals. *)
Theorem C6_floored_principal_unfloored_profit :
  forall (rh : RendimentsHandler) (metric : Metric) (request : SimulationRequest Exact)
         (w : World Exact),
    @GetLastMetric (metricRepository rh) (fetched w) CDI_TYPE = inl metric ->
    let principal : R := InitialValue request in
    let adjustedDailyRate : R := (Q2R (Value metric) / 100)%R in
    let compounded : R :=
      (IZR (Zfloor principal)
       * powerRZ (1 + adjustedDailyRate) (CDB.businessDays request))%R in
    CDB.adjustedDailyCdi (F := Exact) metric = adjustedDailyRate
    /\ CDB.grossAmount metric request = compounded
    /\ CDB.profit metric request = (compounded - principal)%R
    /\ fst (SimulateCDB rh request w)
       = (round2 (F := Exact)
            (compounded - (compounded - principal) * CDB.taxRate request / 100)%R,
          None).
Proof.
  intros rh metric request w Hfetch principal adjustedDailyRate compounded.
  assert (Hgross : CDB.grossAmount metric request = compounded).
  { unfold CDB.grossAmount, CDB.initialValue.
    cbn [fmul fadd const of_int Floor Pow Exact].
    rewrite ExactFacts.Pow_of_int, adjustedDailyCdi_exact.
    autorewrite with constants. reflexivity. }
  repeat split.
  - apply adjustedDailyCdi_exact.
  - exact Hgross.
  - unfold CDB.profit, CDB.initialValue. now rewrite Hgross.
  - rewrite (SimulateCDB_fetched rh request w metric Hfetch). cbn [fst].
    rewrite result_exact. now rewrite Hgross.
Qed.

(** A principal of 1000.9 over 12 months: 1000 is compounded over 252
    periods, and the profit is what that leaves above 1000.9. *)
Lemma C6_witness :
  CDB.profit {| Value := 0.05 |} (mkRequest Exact 1000.9%R 12 None)
  = (IZR (Zfloor 1000.9) * powerRZ (1 + Q2R 0.05 / 100) 252 - 1000.9)%R.
Proof.
  apply (C6_floored_principal_unfloored_profit
           (handlerOf (constantRates 0.05 10.5)) {| Value := 0.05 |}
           (mkRequest Exact 1000.9%R 12 None) start).
  reflexivity.
Defined.

(* ================================================================= *)
(** ** The monthly rate of the two savings simulations *)

Section Savings.
Variable metric : Metric.
Local Open Scope R_scope.

Lemma Poupanca_monthTax_rule :
  Poupanca.monthTax (F := Exact) metric = Spec.monthlyRate (Q2R (Value metric)).
Proof.
  unfold Poupanca.monthTax, Poupanca.anualSelic, Spec.monthlyRate.
  cbn [flt fmul fdiv const InexactFloat64 Exact]. autorewrite with constants.
  unfold ExactOps.lt.
  destruct (Rlt_dec (Q2R (Value metric) / 100) 0.085); reflexivity.
Qed.

Lemma PoupancaMonthly_monthTax_rule :
  PoupancaMonthly.monthTax (F := Exact) metric = Spec.monthlyRate (Q2R (Value metric)).
Proof.
  unfold PoupancaMonthly.monthTax, PoupancaMonthly.anualSelic, Spec.monthlyRate.
  cbn [flt fmul fdiv const InexactFloat64 Exact]. autorewrite with constants.
  unfold ExactOps.lt.
  destruct (Rlt_dec (Q2R (Value metric) / 100) 0.085); reflexivity.
Qed.
End Savings.

(** C8. Both savings simulations take their monthly rate by the one
    threshold rule of the specification, and compound with it: the lump sum
    as [principal * (1 + rate)^months], the contributions by the annuity
    formula on top of the accumulated amount. *)
Theorem C8_savings_threshold_rule :
  forall (metric : Metric) (request : SimulationRequest Exact),
    let monthlyRate : R := Spec.monthlyRate (Q2R (Value metric)) in
    let growth : R := powerRZ (1 + monthlyRate) (Months request) in
    let accumulated : R :=
      match Accumulated request with Some a => a | None => 0%R end in
    Poupanca.monthTax (F := Exact) metric = monthlyRate
    /\ PoupancaMonthly.monthTax (F := Exact) metric = monthlyRate
    /\ Poupanca.result metric request
       = round2 (F := Exact) (InitialValue request * growth)%R
    /\ PoupancaMonthly.result metric request
       = round2 (F := Exact)
           (accumulated * growth + InitialValue request * (growth - 1) / monthlyRate)%R.
Proof.
  intros metric request monthlyRate growth accumulated. repeat split.
  - apply Poupanca_monthTax_rule.
  - apply PoupancaMonthly_monthTax_rule.
  - unfold Poupanca.result, Poupanca.finalAmount, round2.
    rewrite Poupanca_monthTax_rule.
    cbn [fmul fadd fdiv const of_int Pow Round Exact].
    rewrite ExactFacts.Pow_of_int. autorewrite with constants. reflexivity.
  - unfold PoupancaMonthly.result, PoupancaMonthly.totalAmount,
      PoupancaMonthly.futureAmount, PoupancaMonthly.accumulatedValue, round2.
    rewrite PoupancaMonthly_monthTax_rule.
    cbn [fmul fadd fsub fdiv const of_int Pow Round Exact].
    rewrite ExactFacts.Pow_of_int. autorewrite with constants.
    unfold accumulated, growth, monthlyRate.
    destruct (Accumulated request); reflexivity.
Qed.

(** The two rates the specification works out: 8% is below the threshold,
    9% is not. *)
Example monthTax_at_8_percent :
  Poupanca.monthTax (F := Exact) {| Value := 8 |} = (0.7 * 0.08 / 12)%R
  /\ PoupancaMonthly.monthTax (F := Exact) {| Value := 8 |} = (0.7 * 0.08 / 12)%R.
Proof.
  rewrite Poupanca_monthTax_rule, PoupancaMonthly_monthTax_rule.
  unfold Spec.monthlyRate. cbn [Value].
  replace (Q2R 8) with 8%R by (unfold Q2R; simpl; lra).
  destruct (Rlt_dec (8 / 100) 0.085); [split; lra | lra].
Qed.

Example monthTax_at_9_percent :
  Poupanca.monthTax (F := Exact) {| Value := 9 |} = 0.005%R
  /\ PoupancaMonthly.monthTax (F := Exact) {| Value := 9 |} = 0.005%R.
Proof.
  rewrite Poupanca_monthTax_rule, PoupancaMonthly_monthTax_rule.
  unfold Spec.monthlyRate. cbn [Value].
  replace (Q2R 9) with 9%R by (unfold Q2R; simpl; lra).
  destruct (Rlt_dec (9 / 100) 0.085); [lra | split; reflexivity].
Qed.

(* ================================================================= *)
(** ** The annuity at a zero rate, in binary64 *)

(** C9 (the code departs from the claim). With a SELIC of 0 the monthly rate
    is 0 and the annuity formula divides 0 by 0: the call does return, with
    a nil error, but what it returns is NaN, not a defined amount. *)
Theorem C9_zero_rate_annuity_is_NaN :
  let rh := handlerOf (constantRates 0.05 0) in
  let request := mkRequest IEEE 100%float 12 None in
  PoupancaMonthly.monthTax (F := IEEE) {| Value := 0 |} = 0%float
  /\ PoupancaMonthly.futureAmount (F := IEEE) {| Value := 0 |} request = nan
  /\ SimulatePoupancaMonthly rh request start
     = (nan, None, {| fetched := 1; ctx := [] |}).
Proof.
  repeat split.
Qed.

(* ================================================================= *)
(** ** [SimulateCDB] as a function of the months *)

Section Months.
Local Open Scope R_scope.

Lemma Round_eval (x : R) (n : Z) :
  0 <= x -> IZR n <= x + / 2 < IZR n + 1 -> ExactOps.Round x = IZR n.
Proof.
  intros Hx Hn. unfold ExactOps.Round.
  destruct (Rle_dec 0 x); [| contradiction].
  f_equal. now apply Zfloor_eq.
Qed.




(** The tax rate is a percentage, and a longer term never has a higher one. *)
Lemma taxRate_bounds (request : SimulationRequest Exact) :
  0 <= CDB.taxRate request <= 100.
Proof.
  unfold CDB.taxRate.
  repeat match goal with |- context [(?a <? ?b)%Z] => destruct (a <? b)%Z end;
    cbn [const Exact]; autorewrite with constants; lra.
Qed.




(** A whole principal that is not negative shows no loss before tax. *)
Lemma whole_principal_profit (metric : Metric) (request : SimulationRequest Exact) :
  0 <= InitialValue request ->
  ExactOps.Floor (InitialValue request) = InitialValue request ->
  (0 <= Months request)%Z -> (Months request * 365 < 2 ^ 63)%Z ->
  0 <= CDB.adjustedDailyCdi (F := Exact) metric ->
  InitialValue request <= CDB.grossAmount metric request.
Proof.
  intros Hp Hwhole Hlo Hhi Hrate.
  rewrite grossAmount_exact by assumption.
  rewrite adjustedDailyCdi_exact in Hrate.
  unfold ExactOps.Floor in Hwhole. rewrite Hwhole.
  set (a := 1 + Q2R (Value metric) / 100) in *.
  assert (Ha : 1 <= a) by (unfold a; lra).
  assert (H1 : 1 <= a ^ Z.to_nat (21 * Months request)) by now apply pow_R1_Rle.
  nra.
Qed.

End Months.




(* ================================================================= *)
(** ** The monthly-contribution mode *)

Section ListFacts.
Context {A B : Type}.

Lemma flat_map_nil (g : A -> list B) (l : list A) :
  (forall a, In a l -> g a = []) -> flat_map g l = [].
Proof.
  induction l as [| a l IH]; intros Hg.
  - reflexivity.
  - cbn. rewrite (Hg a) by now left. apply IH. intros b Hb. apply Hg. now right.
Qed.
End ListFacts.

Lemma forEach_ext {F : Float64} {A B : Type} (f g : A -> Action F B) (l : list A) :
  (forall a w, f a w = g a w) -> forall w, forEach f l w = forEach g l w.
Proof.
  intros Hfg. induction l as [| a l IH]; intros w.
  - reflexivity.
  - cbn [forEach]. unfold bind. rewrite Hfg.
    destruct (g a w) as [b w1]. now rewrite IH.
Qed.

(** C5. In monthly-contribution mode the handler runs [SimulateCDB] once for
    each index [0 .. months-1], in order, each time with the flat
    contribution [principal / months] as principal and the index as months;
    the values returned are added up from 0, and the rounded total is the
    fixed-income value of the answer. *)
Theorem C5_one_run_per_month_summed :
  forall (F : Float64) (rh : RendimentsHandler) (request : SimulationRequest F)
         (w : World F),
    Accumulated request = None ->
    let contribution := (InitialValue request / of_int (Months request))%f64 in
    let runs :=
      forEach (fun i => SimulateCDB rh (mkRequest F contribution i None))
        (indices (Months request)) w in
    let savings :=
      SimulatePoupancaMonthly rh (mkRequest F contribution (Months request) None)
        (snd runs) in
    (forall i : Z, In i (indices (Months request)) <-> (0 <= i < Months request)%Z)
    /\ List.length (indices (Months request)) = Z.to_nat (Months request)
    /\ SimulateMonthlyRendiments rh (inl request) w
       = (tt,
          {| fetched := fetched (snd savings);
             ctx := ctx (snd savings)
                    ++ [JSON StatusOK
                          (Simulations
                             {| CdbValue := round2 (sum (map fst (fst runs)));
                                PoupancaValue := fst (fst savings) |})] |}).
Proof.
  intros F rh request w Hacc contribution runs savings.
  split; [intros i; apply In_indices | split; [apply upto_length |]].
  pose proof (SimulateMonthlyRendiments_run rh request w) as Hrun.
  assert (Hper : forall i, perMonth request i = mkRequest F contribution i None).
  { intros i. unfold perMonth, mkRequest, contribution. now rewrite Hacc. }
  assert (Hruns :
    forEach (fun i => SimulateCDB rh (perMonth request i)) (indices (Months request)) w
    = runs).
  { unfold runs. apply forEach_ext. intros i w'. now rewrite Hper. }
  rewrite Hruns in Hrun. destruct runs as [cdbs w1] eqn:Eruns.
  rewrite Hper in Hrun. cbn [snd] in savings. fold savings in Hrun.
  destruct savings as [poup w2] eqn:Esavings.
  rewrite Hacc in Hrun. exact Hrun.
Qed.

Lemma C5_witness :
  let rh := handlerOf (constantRates 0.05 10.5) in
  let request := mkRequest IEEE 1200%float 12 None in
  snd (SimulateMonthlyRendiments rh (inl request) start)
  = {| fetched := 13;
       ctx := [JSON StatusOK
                 (Simulations
                    {| CdbValue :=
                         round2 (sum (map fst (fst
                           (forEach (fun i => SimulateCDB rh (mkRequest IEEE 100%float i None))
                              (indices 12) start))));
                       PoupancaValue := IEEEOps.of_Q 1233.56 |})] |}.
Proof.
  intros rh request.
  destruct (C5_one_run_per_month_summed IEEE rh request start eq_refl) as [_ [_ Hrun]].
  rewrite Hrun. reflexivity.
Defined.

(* ----------------------------------------------------------------- *)
(** *** Rounding in the monthly-contribution mode *)

(** C4, as the claim states it, fails: a goal of 1 over 2 months makes two
    contributions of 0.5, each returned by [SimulateCDB] as 0.1125 rounded
    to 0.11; the handler answers 0.22, the rounded sum of the rounded terms.
    Rounding once, after summing the unrounded 0.1125 + 0.1125 = 0.225,
    gives 0.23. *)
Lemma C4_each_term_is_rounded_before_the_sum :
  let rh := handlerOf (constantRates 0.05 10.5) in
  let request := mkRequest Exact 1%R 2 None in
  let unrounded :=
    map (fun i => CDB.finalAmount {| Value := 0.05 |} (perMonth request i)) (indices 2) in
  exists poup : R,
    snd (SimulateMonthlyRendiments rh (inl request) start)
    = {| fetched := 3;
         ctx := [JSON StatusOK
                   (Simulations (mkResponse Exact 0.22%R poup))] |}
    /\ round2 (F := Exact) (sum unrounded) = 0.23%R.
Proof.
  intros rh request unrounded.
  assert (Hhalf : InitialValue (perMonth request 0) = 0.5%R).
  { cbn [perMonth InitialValue request mkRequest Months fdiv of_int Exact]. lra. }
  assert (Hfinal : forall i : Z,
            CDB.taxRate (perMonth request i) = 22.5%R ->
            CDB.finalAmount {| Value := 0.05 |} (perMonth request i) = 0.1125%R).
  { intros i Hrate.
    unfold CDB.finalAmount, CDB.taxDiscount, CDB.profit, CDB.grossAmount, CDB.initialValue.
    rewrite Hrate. change (InitialValue (perMonth request i)) with (InitialValue (perMonth request 0)).
    rewrite Hhalf. cbn [fmul fdiv fsub fadd const Floor Exact].
    unfold ExactOps.Floor. rewrite (Zfloor_eq 0) by (simpl; lra).
    autorewrite with constants. lra. }
  assert (Hrate : forall i : Z, (i = 0 \/ i = 1)%Z -> CDB.taxRate (perMonth request i) = 22.5%R).
  { intros i [-> | ->];
      (change (Q2R UNTIL_180_DAYS = 22.5%R); now autorewrite with constants). }
  assert (Hterm : forall i : Z, (i = 0 \/ i = 1)%Z ->
            CDB.result {| Value := 0.05 |} (perMonth request i) = 0.11%R).
  { intros i Hi.
    change (CDB.result {| Value := 0.05 |} (perMonth request i))
      with (round2 (F := Exact) (CDB.finalAmount {| Value := 0.05 |} (perMonth request i))).
    rewrite Hfinal by now apply Hrate.
    rewrite ExactFacts.round2_unfold, (@Round_eval _ 11%Z) by (simpl; lra). lra. }
  eexists. split.
  - rewrite (SimulateMonthlyRendiments_fresh rh request {| Value := 10.5 |} eq_refl eq_refl).
    change (Z.to_nat (Months request)) with 2%nat.
    cbn [seq map flat_map app].
    change (cdbWrites (F := Exact) rh 0) with (@nil (CtxCall Exact)).
    change (cdbWrites (F := Exact) rh 1) with (@nil (CtxCall Exact)).
    change (cdbValue rh 0 (perMonth request (Z.of_nat 0)))
      with (CDB.result {| Value := 0.05 |} (perMonth request 0)).
    change (cdbValue rh 1 (perMonth request (Z.of_nat 1)))
      with (CDB.result {| Value := 0.05 |} (perMonth request 1)).
    rewrite !Hterm by lia.
    assert (Htotal : round2 (F := Exact) (sum (F := Exact) [0.11%R; 0.11%R]) = 0.22%R).
    { unfold sum. cbn [fold_left fadd const Exact]. autorewrite with constants.
      rewrite ExactFacts.round2_unfold, (@Round_eval _ 22%Z) by (simpl; lra). lra. }
    cbn [float64 Exact]. rewrite Htotal. reflexivity.
  - unfold unrounded. change (indices 2) with [0%Z; 1%Z]. cbn [map].
    rewrite !Hfinal by (apply Hrate; lia).
    unfold sum. cbn [fold_left fadd const Exact]. autorewrite with constants.
    rewrite ExactFacts.round2_unfold, (@Round_eval _ 23%Z) by (simpl; lra). lra.
Qed.

(** C4 (amended). When every fetch succeeds, the fixed-income value of the
    answer is the sum of the per-month results rounded to two decimals,
    where each per-month result entering the sum has itself been rounded to
    two decimals by [SimulateCDB]. *)
Theorem C4_total_rounds_the_sum_of_rounded_terms :
  forall (F : Float64) (rh : RendimentsHandler) (request : SimulationRequest F)
         (rates : nat -> Metric) (selic : Metric),
    let n := Z.to_nat (Months request) in
    Accumulated request = None ->
    (forall i, (i < n)%nat ->
               @GetLastMetric (metricRepository rh) i CDI_TYPE = inl (rates i)) ->
    @GetLastMetric (metricRepository rh) n SELIC = inl selic ->
    snd (SimulateMonthlyRendiments rh (inl request) start)
    = {| fetched := S n;
         ctx := [JSON StatusOK
                   (Simulations
                      {| CdbValue :=
                           round2 (sum (map (fun i =>
                                               round2 (CDB.finalAmount (rates i)
                                                         (perMonth request (Z.of_nat i))))
                                            (seq 0 n)));
                         PoupancaValue :=
                           PoupancaMonthly.result selic
                             (perMonth request (Months request)) |})] |}.
Proof.
  intros F rh request rates selic n Hacc Hrates Hselic.
  rewrite (SimulateMonthlyRendiments_fresh rh request selic Hacc Hselic).
  fold n.
  rewrite flat_map_nil.
  2: { intros i Hi. apply in_seq in Hi. unfold cdbWrites. rewrite Hrates; [reflexivity | lia]. }
  assert (Hvalues :
    map (fun k => cdbValue rh k (perMonth request (Z.of_nat k))) (seq 0 n)
    = map (fun i => round2 (CDB.finalAmount (rates i) (perMonth request (Z.of_nat i))))
        (seq 0 n)).
  { apply map_ext_in. intros i Hi. apply in_seq in Hi.
    unfold cdbValue. rewrite Hrates; [reflexivity | lia]. }
  rewrite Hvalues. reflexivity.
Qed.

Lemma C4_witness :
  let rh := handlerOf (constantRates 0.05 10.5) in
  let request := mkRequest IEEE 1200%float 12 None in
  snd (SimulateMonthlyRendiments rh (inl request) start)
  = {| fetched := 13;
       ctx := [JSON StatusOK
                 (Simulations
                    {| CdbValue :=
                         round2 (sum (map (fun i =>
                                             round2 (CDB.finalAmount {| Value := 0.05 |}
                                                       (perMonth request (Z.of_nat i))))
                                          (seq 0 12)));
                       PoupancaValue := IEEEOps.of_Q 1233.56 |})] |}.
Proof.
  intros rh request.
  rewrite (C4_total_rounds_the_sum_of_rounded_terms IEEE rh request
             (fun _ => {| Value := 0.05 |}) {| Value := 10.5 |}
             eq_refl (fun i _ => eq_refl) eq_refl).
  reflexivity.
Defined.

(* ================================================================= *)
(** ** Further properties of the handlers *)

(** X1. For a month count that does not overflow, [SimulateCDB] taxes at 22.5%,
    17.5% or 15%: the 20% case of its switch is never taken. *)
Theorem taxRate_is_never_the_second_tier :
  forall (F : Float64) (request : SimulationRequest F),
    (0 <= Months request)%Z -> (Months request * 365 < 2 ^ 63)%Z ->
    CDB.taxRate request = const UNTIL_180_DAYS
    \/ CDB.taxRate request = const UNTIL_720_DAYS
    \/ CDB.taxRate request = const MORE_THAN_720_DAYS.
Proof.
  intros F request Hlo Hhi.
  destruct (second_tier_never_taken request Hlo Hhi) as [Hd | Hd]; unfold CDB.taxRate.
  - left. destruct (Z.ltb_spec (CDB.totalDays request) 180); [reflexivity | lia].
  - right.
    destruct (Z.ltb_spec (CDB.totalDays request) 180); [lia |].
    destruct (Z.ltb_spec (CDB.totalDays request) 360); [lia |].
    destruct (Z.ltb_spec (CDB.totalDays request) 720); [left | right]; reflexivity.
Qed.

Lemma taxRate_is_never_the_second_tier_witness :
  CDB.taxRate (mkRequest IEEE 1000%float 6 None) = 22.5%float
  \/ CDB.taxRate (mkRequest IEEE 1000%float 6 None) = 17.5%float
  \/ CDB.taxRate (mkRequest IEEE 1000%float 6 None) = 15%float.
Proof.
  apply (taxRate_is_never_the_second_tier IEEE (mkRequest IEEE 1000%float 6 None));
    simpl; lia.
Defined.

(** X2. None of the three simulations ever returns a non-nil error. *)
Theorem simulations_never_return_an_error :
  forall (F : Float64) (rh : RendimentsHandler) (request : SimulationRequest F)
         (w : World F),
    snd (fst (SimulateCDB rh request w)) = None
    /\ snd (fst (SimulatePoupanca rh request w)) = None
    /\ snd (fst (SimulatePoupancaMonthly rh request w)) = None.
Proof.
  intros F rh request w. repeat split.
  - apply SimulateCDB_nil.
  - unfold SimulatePoupanca, bind, fetch, ret, call_ctx.
    now destruct (@GetLastMetric (metricRepository rh) (fetched w) SELIC).
  - apply SimulatePoupancaMonthly_nil.
Qed.

(* ================================================================= *)
(** ** The savings handler: priorities, emergency fund, ownership *)

Module SavingsFacts.
Import Savings.
Import Savings.SavingHandler.
Local Open Scope Z_scope.

Ltac run :=
  unfold abort, answer, bind, ask, write, ret; cbn [fst snd calls ctx].

(** The scan finds the greatest priority, counted from 0, and any emergency
    fund. *)
Lemma scan_from (list : list Saving.t) :
  forall (m : Z) (e : bool),
    let r := fold_left
      (fun (acc : Z * bool) (s : Saving.t) =>
         let (maxPriority, existEmergencyFund) := acc in
         (if Saving.Priority s >? maxPriority then Saving.Priority s else maxPriority,
          if Saving.IsEmergencyFund s >? 0 then true else existEmergencyFund))
      list (m, e) in
    m <= fst r
    /\ (forall s, In s list -> Saving.Priority s <= fst r)
    /\ (fst r = m \/ exists s, In s list /\ fst r = Saving.Priority s)
    /\ snd r = (e || existsb (fun s => Saving.IsEmergencyFund s >? 0) list)%bool.
Proof.
  induction list as [| s list IH]; intros m e.
  - cbn. split; [lia | split; [intros s [] | split; [now left | now rewrite orb_false_r]]].
  - cbn [fold_left existsb].
    specialize (IH (if Saving.Priority s >? m then Saving.Priority s else m)
                   (if Saving.IsEmergencyFund s >? 0 then true else e)).
    cbv zeta in IH. destruct IH as [Hlo [Hall [Hwhich Hany]]].
    set (r := fold_left _ list _) in *.
    destruct (Z.gtb_spec (Saving.Priority s) m) as [Hgt | Hle].
    + repeat split.
      * lia.
      * intros s' [<- | Hin]; [lia | now apply Hall].
      * right. destruct Hwhich as [Heq | [s' [Hin Heq]]].
        -- exists s. split; [now left | exact Heq].
        -- exists s'. split; [now right | exact Heq].
      * rewrite Hany. now destruct (Saving.IsEmergencyFund s >? 0), e.
    + repeat split.
      * lia.
      * intros s' [<- | Hin]; [lia | now apply Hall].
      * destruct Hwhich as [Heq | [s' [Hin Heq]]]; [now left |].
        right. exists s'. split; [now right | exact Heq].
      * rewrite Hany. now destruct (Saving.IsEmergencyFund s >? 0), e.
Qed.

Lemma scan_max (list : list Saving.t) :
  0 <= fst (scan list)
  /\ (forall s, In s list -> Saving.Priority s <= fst (scan list))
  /\ (fst (scan list) = 0 \/ exists s, In s list /\ fst (scan list) = Saving.Priority s).
Proof.
  destruct (scan_from list 0 false) as [Hlo [Hall [Hwhich _]]]. repeat split; assumption.
Qed.

Lemma scan_emergency (list : list Saving.t) :
  snd (scan list) = existsb (fun s => Saving.IsEmergencyFund s >? 0) list.
Proof. now destruct (scan_from list 0 false) as [_ [_ [_ Hany]]]. Qed.

(** The only saving [createSaving] passes to [savingUseCase.Create] is the
    one it is given, and it undoes nothing. *)
Lemma createSaving_calls (cr : SavingHandler.t) (env : Env)
    (savingRequest : SavingAddRequest.t) (saving : Saving.t) (w : World) :
  exists after : list Call,
    calls (snd (createSaving cr env savingRequest saving w))
    = (calls w ++ CallCreate saving :: after)%list
    /\ (forall c, In c after ->
          (exists name, c = CallGetCategory name) \/ (exists input, c = CallCreateExpense input)).
Proof.
  unfold createSaving. run.
  destruct (SavingUseCase.Create _ _ _).
  { exists []. cbn. split; [reflexivity | intros c []]. }
  destruct ((SavingAddRequest.ShouldBeExpense savingRequest =? 1)
            && (SavingAddRequest.MonthsToGoal savingRequest >? 0))%bool.
  2: { exists []. cbn. split; [reflexivity | intros c []]. }
  cbn [calls].
  destruct (CategoryUseCase.GetCategory _ _ _) as [[| first rest] | err]; cbn [snd calls].
  - exists [CallGetCategory "Caixinha"]. rewrite <- app_assoc. split; [reflexivity |].
    intros c [<- | []]. left. now eexists.
  - destruct (ExpenseHandler.createExpenseInternal _ _ _); cbn [snd calls];
      (eexists [CallGetCategory "Caixinha"; CallCreateExpense _];
       rewrite <- !app_assoc; split; [reflexivity |];
       intros c [<- | [<- | []]]; [left | right]; now eexists).
  - exists [CallGetCategory "Caixinha"]. rewrite <- app_assoc. split; [reflexivity |].
    intros c [<- | []]. left. now eexists.
Qed.

(** The three ways [Create] runs on a request that binds: the user is not
    known; a second emergency fund is refused; or the saving goes to the
    use case, after the one call that reads the user's savings. *)
Lemma Create_runs (cr : SavingHandler.t) (env : Env) (savingRequest : SavingAddRequest.t) :
  Create cr env (inl savingRequest) start
  = (Returned,
     {| calls := [];
        ctx := [AbortWithStatusJSON StatusUnprocessableEntity
                  (H (code_message StatusUnprocessableEntity ErrCreateSaving
                      ++ [("more_info"%string, checkUser)]))] |})
  \/ (exists userId,
        Create cr env (inl savingRequest) start
        = (Returned,
           {| calls := [CallGetAllSavings userId];
              ctx := [AbortWithStatusJSON StatusUnprocessableEntity
                        (H (code_message StatusUnprocessableEntity
                              ErrCreateDuplicateEmergencyFund))] |}))
  \/ (exists userId saving,
        Create cr env (inl savingRequest) start
        = createSaving cr env savingRequest saving
            {| calls := [CallGetAllSavings userId]; ctx := [] |}).
Proof.
  unfold Create.
  destruct (UserIdByToken env) as [userId | err].
  2: { left. reflexivity. }
  right. unfold bind, ask. cbn [calls start ctx app].
  destruct (SavingUseCase.GetAllSavings _ _ _) as [[| s1 list] | err].
  - right. now eexists _, _.
  - destruct (scan (s1 :: list)) as [maxPriority existEmergencyFund].
    destruct ((_ =? 1) && existEmergencyFund)%bool.
    + left. now eexists.
    + right. now eexists _, _.
  - right. now eexists _, _.
Qed.

(** X5. The new saving's priority. When the user's savings are read, the saving
    [Create] passes to the use case has a priority of at least 1 that is
    above the priority of every saving read, hence different from each. *)
Theorem Create_priority_is_above_the_existing :
  forall (cr : SavingHandler.t) (env : Env) (savingRequest : SavingAddRequest.t)
         (userId : Z) (list : list Saving.t) (saving : Saving.t),
    UserIdByToken env = inl userId ->
    SavingUseCase.GetAllSavings (savingUseCase cr) [] userId = inl list ->
    (forall s, In s list -> Saving.Priority s < 2 ^ 63 - 1) ->
    In (CallCreate saving) (calls (snd (Create cr env (inl savingRequest) start))) ->
    1 <= Saving.Priority saving
    /\ forall s, In s list -> Saving.Priority s < Saving.Priority saving.
Proof.
  intros cr env savingRequest userId list saving Htoken Hlist Hrange Hin.
  unfold Create in Hin. rewrite Htoken in Hin. unfold bind at 1, ask at 1 in Hin.
  cbn [calls start] in Hin. rewrite Hlist in Hin.
  assert (Hcreated : forall s0 w, calls w = [CallGetAllSavings userId] ->
            In (CallCreate saving) (calls (snd (createSaving cr env savingRequest s0 w))) ->
            saving = s0).
  { intros s0 w Hw Hs0.
    destruct (createSaving_calls cr env savingRequest s0 w) as [after [Hcalls Hafter]].
    rewrite Hcalls, Hw in Hs0. cbn in Hs0.
    destruct Hs0 as [Hs0 | [Hs0 | Hs0]]; [discriminate | congruence |].
    destruct (Hafter _ Hs0) as [[name Hc] | [input Hc]]; discriminate. }
  destruct list as [| s1 list].
  - apply Hcreated in Hin; [| reflexivity]. subst saving. cbn. split; [lia | intros s []].
  - destruct (scan_max (s1 :: list)) as [Hlo [Hall Hwhich]].
    destruct (scan (s1 :: list)) as [maxPriority existEmergencyFund]. cbn [fst] in *.
    assert (Hmax : maxPriority < 2 ^ 63 - 1).
    { destruct Hwhich as [-> | [s [Hs ->]]]; [lia | now apply Hrange]. }
    destruct ((Saving.IsEmergencyFund _ =? 1) && existEmergencyFund)%bool.
    + cbn in Hin. destruct Hin as [Hin | []]. discriminate.
    + apply Hcreated in Hin; [| reflexivity]. subst saving. cbn [Saving.Priority Saving.setPriority].
      rewrite GoIntFacts.wrap_id by (unfold GoInt.InRange; lia).
      split; [lia |]. intros s Hs. specialize (Hall s Hs). lia.
Qed.

Lemma Create_priority_witness :
  1 <= Saving.Priority bikeSaving
  /\ forall s, In s [emergency; travel] -> Saving.Priority s < Saving.Priority bikeSaving.
Proof.
  apply (Create_priority_is_above_the_existing
           (handlerOver [emergency; travel; car] [{| Category.ID := 4 |}])
           (envOf 0 7) bike 7 [emergency; travel] bikeSaving).
  - reflexivity.
  - reflexivity.
  - intros s [<- | [<- | []]]; cbn; lia.
  - cbn. right. left. reflexivity.
Defined.

(** X6. A second emergency fund is refused before anything is created: when the
    request is an emergency fund and one of the savings read is one, the
    handler answers 422 and asks nothing more of the use case. *)
Theorem Create_refuses_a_second_emergency_fund :
  forall (cr : SavingHandler.t) (env : Env) (savingRequest : SavingAddRequest.t)
         (userId : Z) (list : list Saving.t) (fund : Saving.t),
    UserIdByToken env = inl userId ->
    SavingUseCase.GetAllSavings (savingUseCase cr) [] userId = inl list ->
    SavingAddRequest.IsEmergencyFund savingRequest = 1 ->
    In fund list -> 0 < Saving.IsEmergencyFund fund ->
    Create cr env (inl savingRequest) start
    = (Returned,
       {| calls := [CallGetAllSavings userId];
          ctx := [AbortWithStatusJSON StatusUnprocessableEntity
                    (H (code_message StatusUnprocessableEntity
                          ErrCreateDuplicateEmergencyFund))] |}).
Proof.
  intros cr env savingRequest userId list fund Htoken Hlist Hrequest Hfund Hpositive.
  unfold Create. rewrite Htoken. unfold bind at 1, ask at 1. cbn [calls start].
  rewrite Hlist. destruct list as [| s1 list]; [destruct Hfund |].
  pose proof (scan_emergency (s1 :: list)) as Hscan.
  destruct (scan (s1 :: list)) as [maxPriority existEmergencyFund]. cbn [snd] in Hscan.
  assert (Hexist : existEmergencyFund = true).
  { rewrite Hscan. apply existsb_exists. exists fund. split; [exact Hfund | lia]. }
  cbn [Saving.IsEmergencyFund Saving.setPriority]. rewrite Hrequest, Hexist.
  reflexivity.
Qed.

Lemma Create_refuses_witness :
  Create (handlerOver [emergency; travel; car] []) (envOf 0 7) (inl secondFund) start
  = (Returned,
     {| calls := [CallGetAllSavings 7];
        ctx := [AbortWithStatusJSON StatusUnprocessableEntity
                  (H (code_message StatusUnprocessableEntity
                        ErrCreateDuplicateEmergencyFund))] |}).
Proof.
  apply (Create_refuses_a_second_emergency_fund
           (handlerOver [emergency; travel; car] []) (envOf 0 7) secondFund
           7 [emergency; travel] emergency).
  - reflexivity.
  - reflexivity.
  - reflexivity.
  - now left.
  - cbn. lia.
Defined.

(** X7. The refusal of a second emergency fund rests on the list being
    read. When [GetAllSavings] fails, the error is dropped: the saving goes
    to the use case with priority 1 and its emergency-fund flag as
    requested, whatever the user already has. *)
Theorem Create_without_the_list_creates_unchecked :
  forall (cr : SavingHandler.t) (env : Env) (savingRequest : SavingAddRequest.t)
         (userId : Z) (err : error),
    UserIdByToken env = inl userId ->
    SavingUseCase.GetAllSavings (savingUseCase cr) [] userId = inr err ->
    exists after : list Call,
      calls (snd (Create cr env (inl savingRequest) start))
      = CallGetAllSavings userId
        :: CallCreate
             {| Saving.ID := 0;
                Saving.UserID := userId;
                Saving.Description := SavingAddRequest.Description savingRequest;
                Saving.Goal := SavingAddRequest.Goal savingRequest;
                Saving.Accumulated := SavingAddRequest.Accumulated savingRequest;
                Saving.IsEmergencyFund := SavingAddRequest.IsEmergencyFund savingRequest;
                Saving.Priority := 1 |}
        :: after.
Proof.
  intros cr env savingRequest userId err Htoken Hlist.
  unfold Create. rewrite Htoken. unfold bind at 1, ask at 1. cbn [calls start].
  rewrite Hlist.
  match goal with |- context [createSaving cr env savingRequest ?s ?w] =>
    destruct (createSaving_calls cr env savingRequest s w) as [after [Hcalls _]]
  end.
  exists after. rewrite Hcalls. reflexivity.
Qed.

Lemma Create_without_the_list_witness :
  exists after : list Call,
    calls (snd (Create blindHandler (envOf 0 7) (inl secondFund) start))
    = CallGetAllSavings 7
      :: CallCreate
           {| Saving.ID := 0;
              Saving.UserID := 7;
              Saving.Description := SavingAddRequest.Description secondFund;
              Saving.Goal := SavingAddRequest.Goal secondFund;
              Saving.Accumulated := SavingAddRequest.Accumulated secondFund;
              Saving.IsEmergencyFund := 1;
              Saving.Priority := 1 |}
      :: after.
Proof.
  apply (Create_without_the_list_creates_unchecked
           blindHandler (envOf 0 7) secondFund 7 (Err "connection refused"));
    reflexivity.
Defined.

(** X8. [Create] asks for an expense only when the request wants one over a
    positive number of months, and only after the saving has been created:
    the run is then the four calls [GetAllSavings], [Create] (which
    returned no error), [GetCategory], [createExpenseInternal], in that
    order. The expense has that many installments of the goal divided by
    the months (never by zero), due on day 1. *)
Theorem Create_expense_only_over_positive_months :
  forall (cr : SavingHandler.t) (env : Env) (savingRequest : SavingAddRequest.t)
         (input : ExpenseInput.t),
    In (CallCreateExpense input)
       (calls (snd (Create cr env (inl savingRequest) start))) ->
    SavingAddRequest.ShouldBeExpense savingRequest = 1
    /\ 0 < SavingAddRequest.MonthsToGoal savingRequest
    /\ ExpenseInput.NumInstallments input = SavingAddRequest.MonthsToGoal savingRequest
    /\ ExpenseInput.Value input
       = Div env (SavingAddRequest.Goal savingRequest)
           (inject_Z (SavingAddRequest.MonthsToGoal savingRequest))
    /\ ExpenseInput.PaymentDay input = 1
    /\ exists userId saving,
         calls (snd (Create cr env (inl savingRequest) start))
         = [CallGetAllSavings userId; CallCreate saving;
            CallGetCategory "Caixinha"; CallCreateExpense input]
         /\ SavingUseCase.Create (savingUseCase cr) [CallGetAllSavings userId] saving
            = None.
Proof.
  intros cr env savingRequest input.
  assert (Hcreate : forall userId saving,
            let w := {| calls := [CallGetAllSavings userId]; ctx := [] |} in
            In (CallCreateExpense input)
               (calls (snd (createSaving cr env savingRequest saving w))) ->
            SavingAddRequest.ShouldBeExpense savingRequest = 1
            /\ 0 < SavingAddRequest.MonthsToGoal savingRequest
            /\ ExpenseInput.NumInstallments input = SavingAddRequest.MonthsToGoal savingRequest
            /\ ExpenseInput.Value input
               = Div env (SavingAddRequest.Goal savingRequest)
                   (inject_Z (SavingAddRequest.MonthsToGoal savingRequest))
            /\ ExpenseInput.PaymentDay input = 1
            /\ calls (snd (createSaving cr env savingRequest saving w))
               = [CallGetAllSavings userId; CallCreate saving;
                  CallGetCategory "Caixinha"; CallCreateExpense input]
            /\ SavingUseCase.Create (savingUseCase cr) [CallGetAllSavings userId] saving
               = None).
  { intros userId saving w. subst w.
    unfold createSaving. run.
    destruct (SavingUseCase.Create _ _ _) eqn:Hcreated.
    { cbn. intros [Hin | [Hin | []]]; discriminate. }
    destruct (Z.eqb_spec (SavingAddRequest.ShouldBeExpense savingRequest) 1) as [Hyes | Hno];
      cbn [andb].
    2: { cbn. intros [Hin | [Hin | []]]; discriminate. }
    destruct (Z.gtb_spec (SavingAddRequest.MonthsToGoal savingRequest) 0) as [Hpos | Hneg].
    2: { cbn. intros [Hin | [Hin | []]]; discriminate. }
    cbn [calls app].
    destruct (CategoryUseCase.GetCategory _ _ _) as [[| first rest] | err]; cbn [snd calls app].
    - cbn. intros [Hin | [Hin | [Hin | []]]]; discriminate.
    - destruct (ExpenseHandler.createExpenseInternal _ _ _); cbn [snd calls app];
        (cbn; intros [Hin | [Hin | [Hin | [Hin | []]]]]; try discriminate;
         injection Hin as <-; cbn; repeat split; try assumption; lia).
    - cbn. intros [Hin | [Hin | [Hin | []]]]; discriminate. }
  destruct (Create_runs cr env savingRequest)
    as [Hnone | [[userId Hrefused] | [userId [saving Hrun]]]].
  - rewrite Hnone. intros [].
  - rewrite Hrefused. cbn. intros [Hin | []]. discriminate.
  - rewrite Hrun. intros Hin. apply Hcreate in Hin.
    destruct Hin as (H1 & H2 & H3 & H4 & H5 & H6 & H7).
    repeat (split; [assumption |]). exists userId, saving. split; assumption.
Qed.

Lemma Create_expense_witness :
  SavingAddRequest.ShouldBeExpense bike = 1
  /\ 0 < SavingAddRequest.MonthsToGoal bike
  /\ ExpenseInput.NumInstallments bikeExpense = SavingAddRequest.MonthsToGoal bike
  /\ ExpenseInput.Value bikeExpense
     = Qdiv (SavingAddRequest.Goal bike) (inject_Z (SavingAddRequest.MonthsToGoal bike))
  /\ ExpenseInput.PaymentDay bikeExpense = 1
  /\ exists userId saving,
       calls (snd (Create (handlerOver [emergency; travel; car] [{| Category.ID := 4 |}])
                      (envOf 0 7) (inl bike) start))
       = [CallGetAllSavings userId; CallCreate saving;
          CallGetCategory "Caixinha"; CallCreateExpense bikeExpense]
       /\ SavingUseCase.Create (fixedStore [emergency; travel; car])
            [CallGetAllSavings userId] saving
          = None.
Proof.
  apply (Create_expense_only_over_positive_months
           (handlerOver [emergency; travel; car] [{| Category.ID := 4 |}])
           (envOf 0 7) bike bikeExpense).
  cbn. right. right. right. left. reflexivity.
Defined.

(** X9. [Create] undoes nothing. It never calls [Update] or [Delete]; so when it
    ends on the failure of the expense, or panics on [categoryId[0]] for an
    empty list of categories, the saving it has passed to the use case
    stays. A panic comes before anything is written to the context. *)
Theorem Create_keeps_the_saving_when_the_expense_fails :
  forall (cr : SavingHandler.t) (env : Env) (bound : SavingAddRequest.t + error),
    let run := Create cr env bound start in
    (forall s, ~ In (CallUpdate s) (calls (snd run)) /\ ~ In (CallDelete s) (calls (snd run)))
    /\ (fst run = Panicked \/
        In (AbortWithStatusJSON StatusUnprocessableEntity
              (H (code_message StatusUnprocessableEntity ErrCreateExpenseFromSaving)))
           (ctx (snd run)) ->
        exists saving, In (CallCreate saving) (calls (snd run)))
    /\ (fst run = Panicked -> ctx (snd run) = []).
Proof.
  intros cr env [savingRequest | err] run; subst run.
  2: { cbn. split; [intros s; split; intros [] | split].
       - intros [Hp | [Hin | []]]; discriminate.
       - discriminate. }
  destruct (Create_runs cr env savingRequest)
    as [Hnone | [[userId Hrefused] | [userId [saving Hrun]]]].
  - rewrite Hnone. cbn. split; [intros s; split; intros [] | split].
    + intros [Hp | [Hin | []]]; discriminate.
    + discriminate.
  - rewrite Hrefused. cbn. split; [intros s; split; (intros [Hin | []]; discriminate) | split].
    + intros [Hp | [Hin | []]]; discriminate.
    + discriminate.
  - rewrite Hrun.
    destruct (createSaving_calls cr env savingRequest saving
                {| calls := [CallGetAllSavings userId]; ctx := [] |}) as [after [Hc Hafter]].
    cbn [calls] in Hc. rewrite Hc.
    assert (Hkinds : forall c, In c ([CallGetAllSavings userId] ++ CallCreate saving :: after)%list ->
              forall s, c <> CallUpdate s /\ c <> CallDelete s).
    { intros c Hin s. cbn in Hin. destruct Hin as [<- | [<- | Hin]]; [split; discriminate ..|].
      destruct (Hafter _ Hin) as [[n ->] | [i ->]]; split; discriminate. }
    split; [| split].
    + intros s. split; intros Hin; destruct (Hkinds _ Hin s) as [Hu Hd]; congruence.
    + intros _. exists saving. cbn. tauto.
    + unfold createSaving. run.
      destruct (SavingUseCase.Create _ _ _); [discriminate |].
      destruct ((_ =? 1) && _)%bool; [| discriminate].
      destruct (CategoryUseCase.GetCategory _ _ _) as [[| first rest] | err]; cbn.
      * reflexivity.
      * destruct (ExpenseHandler.createExpenseInternal _ _ _); discriminate.
      * discriminate.
Qed.

(** The panic is met: a user with no category "Caixinha" asks for a saving
    with an expense. *)
Example Create_panics_without_a_category :
  Create (handlerOver [emergency; travel; car] []) (envOf 0 7) (inl bike) start
  = (Panicked,
     {| calls := [CallGetAllSavings 7; CallCreate bikeSaving; CallGetCategory "Caixinha"];
        ctx := [] |}).
Proof. reflexivity. Qed.

(** X10. The requests no user stands behind ask nothing of the use case: when the
    token names no user, [Create], [FindAll] and [Delete] make no call. *)
Theorem unknown_user_reaches_no_use_case :
  forall (cr : SavingHandler.t) (env : Env) (bound : SavingAddRequest.t + error)
         (err : error),
    UserIdByToken env = inr err ->
    calls (snd (Create cr env bound start)) = []
    /\ calls (snd (FindAll cr env start)) = []
    /\ calls (snd (Delete cr env start)) = [].
Proof.
  intros cr env bound err Htoken.
  unfold Create, FindAll, Delete. rewrite Htoken.
  destruct bound, (ParamId env); repeat split.
Qed.

Lemma unknown_user_witness :
  calls (snd (Create (handlerOver [emergency] []) (anonymous 1) (inl bike) start)) = []
  /\ calls (snd (FindAll (handlerOver [emergency] []) (anonymous 1) start)) = []
  /\ calls (snd (Delete (handlerOver [emergency] []) (anonymous 1) start)) = [].
Proof.
  apply (unknown_user_reaches_no_use_case
           (handlerOver [emergency] []) (anonymous 1) (inl bike) (Err "invalid token")).
  reflexivity.
Defined.

(** *** [Delete] *)

(** The loop of [Delete] calls [Update] once for each saving whose priority
    is above the deleted one's, each time with the deleted saving, and
    writes nothing. *)
Lemma renumber_calls (cr : SavingHandler.t) (savingToDelete : Saving.t)
    (deletedPriority : Z) (allSavings : list Saving.t) :
  forall w : World,
    snd (renumber cr savingToDelete deletedPriority allSavings w)
    = {| calls := calls w
                  ++ repeat (CallUpdate savingToDelete)
                       (List.length
                          (filter (fun s => Saving.Priority s >? deletedPriority) allSavings));
         ctx := ctx w |}.
Proof.
  induction allSavings as [| saving rest IH]; intros w.
  - cbn. rewrite app_nil_r. now destruct w.
  - cbn [renumber filter].
    destruct (Saving.Priority saving >? deletedPriority).
    + unfold bind, ask. rewrite IH. cbn [calls ctx List.length repeat].
      now rewrite <- app_assoc.
    + apply IH.
Qed.

(** X11. [Delete] deletes nothing but the caller's own saving: what it passes to
    the use case's [Delete] is the saving read for the id of the path, and
    that saving belongs to the user of the token. *)
Theorem Delete_only_the_callers_own_saving :
  forall (cr : SavingHandler.t) (env : Env) (deleted : Saving.t),
    In (CallDelete deleted) (calls (snd (Delete cr env start))) ->
    exists id userId,
      ParamId env = inl id
      /\ UserIdByToken env = inl userId
      /\ SavingUseCase.GetSaving (savingUseCase cr) [] id = inl deleted
      /\ Saving.UserID deleted = userId.
Proof.
  intros cr env deleted. unfold Delete.
  destruct (ParamId env) as [id | err]; [| cbn; intros []].
  destruct (UserIdByToken env) as [userId | err]; [| cbn; intros []].
  unfold bind at 1, ask at 1. cbn [calls start].
  destruct (SavingUseCase.GetSaving _ _ _) as [savingToDelete | err] eqn:Hget.
  2: { cbn. intros [Hin | []]. discriminate. }
  destruct (Z.eqb_spec (Saving.UserID savingToDelete) userId) as [Howner | Hother]; cbn [negb].
  2: { cbn. intros [Hin | []]. discriminate. }
  unfold bind at 1, ask at 1. cbn [calls app].
  destruct (SavingUseCase.GetAllSavings _ _ _) as [allSavings | err].
  2: { cbn. intros [Hin | [Hin | []]]; discriminate. }
  unfold bind at 1, ask at 1. cbn [calls app].
  assert (Hfound : In (CallDelete deleted)
                      [CallGetSaving id; CallGetAllSavings userId; CallDelete savingToDelete] ->
                    deleted = savingToDelete).
  { intros [Hin | [Hin | [Hin | []]]]; congruence. }
  assert (Hdone : deleted = savingToDelete ->
                  exists id' userId',
                    (inl id : Z + error) = inl id' /\ (inl userId : Z + error) = inl userId'
                    /\ SavingUseCase.GetSaving (savingUseCase cr) [] id' = inl deleted
                    /\ Saving.UserID deleted = userId').
  { intros ->. exists id, userId. repeat split; assumption. }
  destruct (SavingUseCase.Delete _ _ _).
  - cbn. intros Hin. apply Hdone, Hfound. cbn. exact Hin.
  - unfold bind at 1.
    pose proof (renumber_calls cr savingToDelete (Saving.Priority savingToDelete) allSavings
                  {| calls := [CallGetSaving id; CallGetAllSavings userId;
                               CallDelete savingToDelete];
                     ctx := [] |}) as Hloop.
    destruct (renumber cr savingToDelete (Saving.Priority savingToDelete) allSavings _)
      as [[] w1]. cbn [snd] in Hloop. subst w1.
    unfold answer, bind, write, ret. cbn [snd calls ctx].
    rewrite in_app_iff. intros [Hin | Hin].
    + apply Hdone, Hfound, Hin.
    + apply repeat_spec in Hin. discriminate.
Qed.

Lemma Delete_own_witness :
  exists id userId,
    ParamId (envOf 1 7) = inl id
    /\ UserIdByToken (envOf 1 7) = inl userId
    /\ SavingUseCase.GetSaving (fixedStore [emergency; travel; car]) [] id = inl emergency
    /\ Saving.UserID emergency = userId.
Proof.
  apply (Delete_only_the_callers_own_saving
           (handlerOver [emergency; travel; car] []) (envOf 1 7) emergency).
  cbn. right. right. left. reflexivity.
Defined.

(** X12. After a deletion no other saving's priority is written. The loop that
    should close the gap decrements its own copy of each later saving and
    then passes the deleted saving to [Update]: as many times as there are
    savings of higher priority, the use case is asked to update the saving
    just deleted, and the handler answers 200 whatever those updates return. *)
Theorem Delete_updates_only_the_deleted_saving :
  forall (cr : SavingHandler.t) (env : Env) (id userId : Z)
         (savingToDelete : Saving.t) (allSavings : list Saving.t),
    ParamId env = inl id ->
    UserIdByToken env = inl userId ->
    SavingUseCase.GetSaving (savingUseCase cr) [] id = inl savingToDelete ->
    Saving.UserID savingToDelete = userId ->
    SavingUseCase.GetAllSavings (savingUseCase cr) [CallGetSaving id] userId
    = inl allSavings ->
    SavingUseCase.Delete (savingUseCase cr)
      [CallGetSaving id; CallGetAllSavings userId] savingToDelete = None ->
    Delete cr env start
    = (Returned,
       {| calls :=
            [CallGetSaving id; CallGetAllSavings userId; CallDelete savingToDelete]
            ++ repeat (CallUpdate savingToDelete)
                 (List.length
                    (filter (fun s => Saving.Priority s >? Saving.Priority savingToDelete)
                       allSavings));
          ctx := [JSON StatusOK
                    (H [("code"%string, Plain (Int StatusOK));
                        ("message"%string,
                         Plain (Str "Caixinha deletada com sucesso!"))])] |}).
Proof.
  intros cr env id userId savingToDelete allSavings Hid Htoken Hget Howner Hall Hdelete.
  unfold Delete. rewrite Hid, Htoken.
  unfold bind at 1, ask at 1. cbn [calls start]. rewrite Hget.
  rewrite Howner, Z.eqb_refl. cbn [negb].
  unfold bind at 1, ask at 1. cbn [calls app]. rewrite Hall.
  unfold bind at 1, ask at 1. cbn [calls app]. rewrite Hdelete.
  unfold bind at 1.
  pose proof (renumber_calls cr savingToDelete (Saving.Priority savingToDelete) allSavings
                {| calls := [CallGetSaving id; CallGetAllSavings userId;
                             CallDelete savingToDelete];
                   ctx := [] |}) as Hloop.
  destruct (renumber cr savingToDelete (Saving.Priority savingToDelete) allSavings _)
    as [[] w1]. cbn [snd] in Hloop. subst w1. reflexivity.
Qed.

Lemma Delete_updates_witness :
  Delete (handlerOver [emergency; travel; car] []) (envOf 1 7) start
  = (Returned,
     {| calls := [CallGetSaving 1; CallGetAllSavings 7; CallDelete emergency;
                  CallUpdate emergency];
        ctx := [JSON StatusOK
                  (H [("code"%string, Plain (Int StatusOK));
                      ("message"%string,
                       Plain (Str "Caixinha deletada com sucesso!"))])] |}).
Proof.
  apply (Delete_updates_only_the_deleted_saving
           (handlerOver [emergency; travel; car] []) (envOf 1 7) 1 7
           emergency [emergency; travel]); reflexivity.
Defined.

(** *** [FindAll] and [Update] *)

(** X13. [FindAll] answers with a list only when the user is known and has
    savings: the one [JSON] call it ever makes carries status 200 and the
    non-empty list the use case returned. *)
Theorem FindAll_answers_only_a_non_empty_list :
  forall (cr : SavingHandler.t) (env : Env) (code : Z) (obj : Obj),
    In (JSON code obj) (ctx (snd (FindAll cr env start))) ->
    exists userId savings,
      UserIdByToken env = inl userId
      /\ SavingUseCase.GetAllSavings (savingUseCase cr) [] userId = inl savings
      /\ savings <> []
      /\ code = StatusOK
      /\ obj = SavingList savings.
Proof.
  intros cr env code obj. unfold FindAll.
  destruct (UserIdByToken env) as [userId | err]; [| cbn; intros [Hin | []]; discriminate].
  unfold bind, ask. cbn [calls start].
  destruct (SavingUseCase.GetAllSavings _ _ _) as [[| s rest] | err] eqn:Hall; cbn.
  - intros [Hin | []]. discriminate.
  - intros [Hin | []]. injection Hin as <- <-.
    exists userId, (s :: rest). repeat split; easy.
  - intros [Hin | []]. discriminate.
Qed.

Lemma FindAll_witness :
  exists userId savings,
    UserIdByToken (envOf 0 7) = inl userId
    /\ SavingUseCase.GetAllSavings (fixedStore [emergency; travel; car]) [] userId
       = inl savings
    /\ savings <> []
    /\ StatusOK = StatusOK
    /\ SavingList [emergency; travel] = SavingList savings.
Proof.
  apply (FindAll_answers_only_a_non_empty_list
           (handlerOver [emergency; travel; car] []) (envOf 0 7)
           StatusOK (SavingList [emergency; travel])).
  cbn. left. reflexivity.
Defined.

(** X14. [Update] writes under the id of the path: the saving it passes to the
    use case is the body with its id replaced by the path's, user id and
    priority as the body gave them. Unlike [Delete], it reads neither the
    token nor the stored saving, so this holds whoever asks. *)
Theorem Update_writes_the_body_under_the_path_id :
  forall (cr : SavingHandler.t) (env : Env) (bound : Saving.t + error) (saving : Saving.t),
    In (CallUpdate saving) (calls (snd (Update cr env bound start))) ->
    exists id body,
      ParamId env = inl id
      /\ bound = inl body
      /\ saving = Saving.setID body id
      /\ calls (snd (Update cr env bound start)) = [CallUpdate saving].
Proof.
  intros cr env bound saving. unfold Update.
  destruct (ParamId env) as [id | err]; [| cbn; intros []].
  destruct bound as [body | err]; [| cbn; intros []].
  unfold bind, ask. cbn [calls start].
  destruct (SavingUseCase.Update _ _ _); cbn; intros [Hin | []];
    injection Hin as <-; exists id, body; repeat split.
Qed.

Lemma Update_witness :
  exists id body,
    ParamId (anonymous 2) = inl id
    /\ (inl car : Saving.t + error) = inl body
    /\ Saving.setID car 2 = Saving.setID body id
    /\ calls (snd (Update (handlerOver [emergency; travel; car] []) (anonymous 2)
                     (inl car) start))
       = [CallUpdate (Saving.setID car 2)].
Proof.
  apply (Update_writes_the_body_under_the_path_id
           (handlerOver [emergency; travel; car] []) (anonymous 2) (inl car)
           (Saving.setID car 2)).
  cbn. left. reflexivity.
Defined.
End SavingsFacts.

(* ================================================================= *)
(** ** How the handlers read the rates *)

Section Reads.
Context {F : Float64} (rh : RendimentsHandler).

Local Abbreviation lastMetric := (@GetLastMetric (metricRepository rh)).

Local Abbreviation abortFindMetric :=
  (AbortWithStatusJSON StatusInternalServerError
     (gin_H StatusInternalServerError ErrFindMetric)).

Lemma SimulatePoupanca_run (request : SimulationRequest F) (w : World F) :
  SimulatePoupanca rh request w
  = (match lastMetric (fetched w) SELIC with
     | inl metric => Poupanca.result metric request
     | inr _ => const 0
     end, None,
     {| fetched := S (fetched w);
        ctx := ctx w ++ match lastMetric (fetched w) SELIC with
                        | inl _ => []
                        | inr _ => [abortFindMetric]
                        end |}).
Proof.
  unfold SimulatePoupanca, bind, fetch, ret, call_ctx.
  destruct (@GetLastMetric (metricRepository rh) (fetched w) SELIC).
  - cbn. now rewrite app_nil_r.
  - reflexivity.
Qed.

Lemma SimulatePoupancaMonthly_run (request : SimulationRequest F) (w : World F) :
  SimulatePoupancaMonthly rh request w
  = (match lastMetric (fetched w) SELIC with
     | inl metric => PoupancaMonthly.result metric request
     | inr _ => const 0
     end, None,
     {| fetched := S (fetched w);
        ctx := ctx w ++ match lastMetric (fetched w) SELIC with
                        | inl _ => []
                        | inr _ => [abortFindMetric]
                        end |}).
Proof.
  unfold SimulatePoupancaMonthly, bind, fetch, ret, call_ctx.
  destruct (@GetLastMetric (metricRepository rh) (fetched w) SELIC).
  - cbn. now rewrite app_nil_r.
  - reflexivity.
Qed.

Lemma In_cdbWrites (n : nat) (c : CtxCall F) :
  In c (cdbWrites rh n) -> c = abortFindMetric.
Proof.
  unfold cdbWrites. destruct (@GetLastMetric (metricRepository rh) n CDI_TYPE).
  - intros [].
  - intros [<- | []]. reflexivity.
Qed.

Lemma cdbWrites_length (n : nat) : List.length (cdbWrites (F := F) rh n) <= 1.
Proof. unfold cdbWrites. destruct (@GetLastMetric (metricRepository rh) n CDI_TYPE); cbn; lia. Qed.
End Reads.

(** What the monthly handler has written when it returns, for a request
    without an accumulated amount: one abort for each CDI read that failed,
    one for the SELIC read if it failed, and the answer. *)
Lemma SimulateMonthlyRendiments_writes {F : Float64} (rh : RendimentsHandler)
    (request : SimulationRequest F) :
  Accumulated request = None ->
  let n := Z.to_nat (Months request) in
  exists poup : float64,
    ctx (snd (SimulateMonthlyRendiments rh (inl request) start))
    = (flat_map (fun i => cdbWrites rh i) (seq 0 n)
       ++ match @GetLastMetric (metricRepository rh) n SELIC with
          | inl _ => []
          | inr _ => [AbortWithStatusJSON StatusInternalServerError
                        (gin_H StatusInternalServerError ErrFindMetric)]
          end)
      ++ [JSON StatusOK
            (Simulations
               (mkResponse F
                  (round2 (sum (map (fun i => cdbValue rh i (perMonth request (Z.of_nat i)))
                                    (seq 0 n))))
                  poup))].
Proof.
  intros Hacc n.
  pose proof (SimulateMonthlyRendiments_run rh request start) as Hrun.
  unfold indices in Hrun. rewrite forEach_SimulateCDB in Hrun.
  rewrite SimulatePoupancaMonthly_run in Hrun.
  cbn [fetched ctx fst snd start Nat.add app] in Hrun.
  rewrite Hacc in Hrun. rewrite Hrun. cbn [snd fst ctx answered].
  rewrite map_map. cbn [fst]. eexists. reflexivity.
Qed.

(** C7. A month whose CDI read fails is not skipped without an error. The
    call of [SimulateCDB] for that month writes a 500 with [ErrFindMetric]
    and returns 0 with a nil error; so the [continue] of the loop is not
    taken, the 0 is added to the total like any other month's value, and,
    whatever the other reads do, the first thing the handler has written to
    the context when it returns is a 500, with the 200 answer last. *)
Theorem C7_failed_month_is_answered_500_and_counted_as_zero :
  forall (F : Float64) (rh : RendimentsHandler) (request : SimulationRequest F)
         (k : nat) (err : error),
    let n := Z.to_nat (Months request) in
    let abort :=
      AbortWithStatusJSON StatusInternalServerError
        (gin_H (F := F) StatusInternalServerError ErrFindMetric) in
    Accumulated request = None ->
    (k < n)%nat ->
    @GetLastMetric (metricRepository rh) k CDI_TYPE = inr err ->
    (forall w : World F,
       fetched w = k ->
       SimulateCDB rh (perMonth request (Z.of_nat k)) w
       = (const 0, None, {| fetched := S k; ctx := ctx w ++ [abort] |}))
    /\ cdbValue rh k (perMonth request (Z.of_nat k)) = const 0
    /\ exists (rest : list (CtxCall F)) (poup : float64),
         ctx (snd (SimulateMonthlyRendiments rh (inl request) start))
         = abort :: rest
           ++ [JSON StatusOK
                 (Simulations
                    (mkResponse F
                       (round2
                          (sum (map (fun i => cdbValue rh i (perMonth request (Z.of_nat i)))
                                    (seq 0 n))))
                       poup))]
         /\ forall c, In c rest -> c = abort.
Proof.
  intros F rh request k err n abort Hacc Hk Hfail. split; [| split].
  - intros w Hw. rewrite (SimulateCDB_failed rh _ w err) by (rewrite Hw; exact Hfail).
    now rewrite Hw.
  - unfold cdbValue. now rewrite Hfail.
  - destruct (SimulateMonthlyRendiments_writes rh request Hacc) as [poup Hctx].
    fold n in Hctx. rewrite Hctx.
    set (writes := (flat_map (fun i => cdbWrites rh i) (seq 0 n) ++ _)%list).
    assert (Hall : forall c, In c writes -> c = abort).
    { intros c Hin. unfold writes in Hin. rewrite in_app_iff in Hin.
      destruct Hin as [Hin | Hin].
      - apply in_flat_map in Hin. destruct Hin as [i [_ Hin]].
        now apply In_cdbWrites in Hin.
      - destruct (@GetLastMetric (metricRepository rh) n SELIC); [destruct Hin |].
        destruct Hin as [<- | []]. reflexivity. }
    assert (Hsome : In abort writes).
    { unfold writes. rewrite in_app_iff. left. apply in_flat_map.
      exists k. split; [apply in_seq; lia |].
      unfold cdbWrites. rewrite Hfail. now left. }
    destruct writes as [| first rest]; [destruct Hsome |].
    exists rest, poup. split.
    + rewrite (Hall first) by now left. reflexivity.
    + intros c Hin. apply Hall. now right.
Qed.

Lemma C7_witness :
  let rh := handlerOf (failingAt 3 (constantRates 0.05 10.5)) in
  let request := mkRequest IEEE 1200%float 12 None in
  let abort :=
    AbortWithStatusJSON StatusInternalServerError
      (gin_H (F := IEEE) StatusInternalServerError ErrFindMetric) in
  (forall w : World IEEE,
     fetched w = 3%nat ->
     SimulateCDB rh (perMonth request 3) w
     = (0%float, None, {| fetched := 4; ctx := ctx w ++ [abort] |}))
  /\ cdbValue rh 3 (perMonth request 3) = 0%float
  /\ exists (rest : list (CtxCall IEEE)) (poup : float),
       ctx (snd (SimulateMonthlyRendiments rh (inl request) start))
       = abort :: rest
         ++ [JSON StatusOK
               (Simulations
                  (mkResponse IEEE
                     (round2
                        (sum (map (fun i => cdbValue rh i (perMonth request (Z.of_nat i)))
                                  (seq 0 12))))
                     poup))]
       /\ forall c, In c rest -> c = abort.
Proof.
  intros rh request abort.
  apply (C7_failed_month_is_answered_500_and_counted_as_zero IEEE rh request 3
           (Err "record not found")).
  - reflexivity.
  - simpl; lia.
  - reflexivity.
Defined.

(** X15. [SimulateAllRendiments] on a request that binds reads two rates, the
    CDI and then the SELIC, and always ends on the 200 answer. A rate that
    cannot be read costs one 500 with [ErrFindMetric] written before that
    answer, and a 0 for its product in it; the handler's own two failure
    branches ([ErrSimulateCdb], [ErrSimulatePoupanca]) are never taken. *)
Theorem one_shot_handler_reads_two_rates_and_answers :
  forall (F : Float64) (rh : RendimentsHandler) (request : SimulationRequest F)
         (w : World F),
    let lastMetric := @GetLastMetric (metricRepository rh) in
    let cdi := lastMetric (fetched w) CDI_TYPE in
    let selic := lastMetric (S (fetched w)) SELIC in
    let failed (r : Metric + error) : list (CtxCall F) :=
      match r with
      | inl _ => []
      | inr _ => [AbortWithStatusJSON StatusInternalServerError
                    (gin_H StatusInternalServerError ErrFindMetric)]
      end in
    SimulateAllRendiments rh (inl request) w
    = (tt,
       {| fetched := fetched w + 2;
          ctx := ctx w ++ failed cdi ++ failed selic
                 ++ [JSON StatusOK
                       (Simulations
                          (mkResponse F
                             match cdi with
                             | inl metric => CDB.result metric request
                             | inr _ => const 0
                             end
                             match selic with
                             | inl metric => Poupanca.result metric request
                             | inr _ => const 0
                             end))] |}).
Proof.
  intros F rh request w lastMetric cdi selic failed.
  unfold SimulateAllRendiments. unfold bind at 1. rewrite SimulateCDB_run.
  unfold bind at 1. rewrite SimulatePoupanca_run. unfold call_ctx.
  cbn [fetched ctx]. unfold cdbValue, cdbWrites.
  fold lastMetric. fold cdi. fold selic.
  replace (S (S (fetched w))) with (fetched w + 2) by lia.
  rewrite <- !app_assoc.
  destruct cdi, selic; reflexivity.
Qed.

(** X16. [SimulateMonthlyRendiments] reads the CDI once for every month it
    simulates, and once more for an accumulated amount, besides the one
    SELIC: [months + 1] or [months + 2] reads for a request of [months]
    months (1 or 2 when [months] is not positive). Whatever those reads
    return, all it writes before its 200 answer is one 500 with
    [ErrFindMetric] for each read that failed. *)
Theorem monthly_handler_reads_one_rate_per_month :
  forall (F : Float64) (rh : RendimentsHandler) (request : SimulationRequest F)
         (w : World F),
    let after := snd (SimulateMonthlyRendiments rh (inl request) w) in
    fetched after
    = fetched w + Z.to_nat (Months request) + 1
      + match Accumulated request with Some _ => 1 | None => 0 end
    /\ exists (before : list (CtxCall F)) (simulations : SimulationResponse F),
         ctx after = ctx w ++ before ++ [JSON StatusOK (Simulations simulations)]
         /\ List.length before <= Z.to_nat (Months request) + 2
         /\ forall c, In c before ->
              c = AbortWithStatusJSON StatusInternalServerError
                    (gin_H StatusInternalServerError ErrFindMetric).
Proof.
  intros F rh request w after. subst after.
  pose proof (SimulateMonthlyRendiments_run rh request w) as Hrun.
  unfold indices in Hrun. rewrite forEach_SimulateCDB in Hrun.
  rewrite SimulatePoupancaMonthly_run in Hrun. cbn [fetched ctx fst snd] in Hrun.
  set (n := Z.to_nat (Months request)) in *.
  set (loop := flat_map (fun k => cdbWrites rh (fetched w + k)) (seq 0 n)) in *.
  set (savings := match @GetLastMetric (metricRepository rh) (fetched w + n) SELIC with
                  | inl _ => []
                  | inr _ => [AbortWithStatusJSON StatusInternalServerError
                                (gin_H (F := F) StatusInternalServerError ErrFindMetric)]
                  end) in *.
  assert (Hloop : forall c, In c loop ->
            c = AbortWithStatusJSON StatusInternalServerError
                  (gin_H StatusInternalServerError ErrFindMetric)).
  { intros c Hin. apply in_flat_map in Hin. destruct Hin as [k [_ Hin]].
    now apply In_cdbWrites in Hin. }
  assert (Hloop_length : List.length loop <= n).
  { unfold loop. clear. clearbody n. generalize 0%nat. induction n as [| n IH]; intros s; [cbn; lia |].
    cbn [seq flat_map]. rewrite length_app. specialize (IH (S s)).
    pose proof (cdbWrites_length (F := F) rh (fetched w + s)). lia. }
  assert (Hsavings : forall c, In c savings ->
            c = AbortWithStatusJSON StatusInternalServerError
                  (gin_H StatusInternalServerError ErrFindMetric)).
  { intros c. unfold savings. destruct (@GetLastMetric _ _ _); [intros [] |].
    intros [<- | []]. reflexivity. }
  assert (Hsavings_length : List.length savings <= 1).
  { unfold savings. destruct (@GetLastMetric _ _ _); cbn; lia. }
  destruct (Accumulated request) as [accumulated |].
  - rewrite SimulateCDB_run in Hrun. rewrite Hrun. cbn [snd fetched ctx answered].
    split; [lia |].
    eexists (loop ++ savings ++ cdbWrites rh (S (fetched w + n))), _.
    split; [now rewrite <- !app_assoc | split].
    + rewrite !length_app.
      pose proof (cdbWrites_length (F := F) rh (S (fetched w + n))). lia.
    + intros c Hin. rewrite !in_app_iff in Hin.
      destruct Hin as [Hin | [Hin | Hin]];
        [now apply Hloop | now apply Hsavings | now apply In_cdbWrites in Hin].
  - rewrite Hrun. cbn [snd fetched ctx answered].
    split; [lia |].
    eexists (loop ++ savings), _.
    split; [now rewrite <- !app_assoc | split].
    + rewrite length_app. lia.
    + intros c Hin. rewrite in_app_iff in Hin.
      destruct Hin as [Hin | Hin]; [now apply Hloop | now apply Hsavings].
Qed.

(* ================================================================= *)
(** ** What the amounts do as the inputs grow *)

Section Growth.
Local Open Scope R_scope.

Lemma Floor_le (x y : R) : x <= y -> ExactOps.Floor x <= ExactOps.Floor y.
Proof. intros Hxy. unfold ExactOps.Floor. now apply IZR_le, Zfloor_le. Qed.

Lemma round2_whole (x : R) : ExactOps.Floor x = x -> round2 (F := Exact) x = x.
Proof.
  unfold ExactOps.Floor. intros <-.
  replace (IZR (Zfloor x)) with (IZR (100 * Zfloor x) / 100) by (rewrite mult_IZR; lra).
  apply ExactFacts.round2_cents.
Qed.

(** The tax rate is read off the months alone. *)
Lemma taxRate_of_months (r1 r2 : SimulationRequest Exact) :
  Months r1 = Months r2 -> CDB.taxRate r1 = CDB.taxRate r2.
Proof. intros Hm. unfold CDB.taxRate, CDB.totalDays, CDB.months. now rewrite Hm. Qed.

Lemma Poupanca_monthTax_exact (metric : Metric) :
  Poupanca.monthTax (F := Exact) metric
  = if Rlt_dec (Q2R (Value metric) / 100) 0.085
    then 0.7 * (Q2R (Value metric) / 100) / 12
    else 0.005.
Proof. rewrite Poupanca_monthTax_rule. reflexivity. Qed.

Lemma monthTax_same (metric : Metric) :
  PoupancaMonthly.monthTax (F := Exact) metric = Poupanca.monthTax (F := Exact) metric.
Proof. now rewrite PoupancaMonthly_monthTax_rule, Poupanca_monthTax_rule. Qed.

Lemma monthTax_nonneg (metric : Metric) :
  0 <= Q2R (Value metric) -> 0 <= Poupanca.monthTax (F := Exact) metric <= 0.005.
Proof.
  intros Hv. rewrite Poupanca_monthTax_exact.
  destruct (Rlt_dec (Q2R (Value metric) / 100) 0.085); lra.
Qed.

Lemma Poupanca_finalAmount_exact (metric : Metric) (request : SimulationRequest Exact) :
  (0 <= Months request)%Z ->
  Poupanca.finalAmount metric request
  = InitialValue request * (1 + Poupanca.monthTax (F := Exact) metric) ^ Z.to_nat (Months request).
Proof.
  intros Hm. unfold Poupanca.finalAmount.
  cbn [fmul fadd const of_int Pow Exact].
  rewrite ExactFacts.Pow_of_nat by exact Hm.
  autorewrite with constants. reflexivity.
Qed.

Lemma Poupanca_result_exact (metric : Metric) (request : SimulationRequest Exact) :
  Poupanca.result metric request = round2 (F := Exact) (Poupanca.finalAmount metric request).
Proof. reflexivity. Qed.
End Growth.

(** X17. The monthly rate of both savings simulations never falls when the
    SELIC grows, and for a SELIC that is not negative it lies between 0 and
    the default 0.5%: below the threshold the 70% rule gives less than the
    default. *)
Theorem savings_rate_is_capped_and_monotone :
  forall m1 m2 : Metric,
    (Value m1 <= Value m2)%Q ->
    (Poupanca.monthTax (F := Exact) m1 <= Poupanca.monthTax (F := Exact) m2)%R
    /\ (PoupancaMonthly.monthTax (F := Exact) m1
        <= PoupancaMonthly.monthTax (F := Exact) m2)%R
    /\ (Poupanca.monthTax (F := Exact) m2 <= 0.005)%R
    /\ ((0 <= Value m1)%Q -> (0 <= Poupanca.monthTax (F := Exact) m1)%R).
Proof.
  intros m1 m2 Hle. apply Qle_Rle in Hle.
  rewrite (monthTax_same m1), (monthTax_same m2).
  rewrite (Poupanca_monthTax_exact m1), (Poupanca_monthTax_exact m2).
  repeat split.
  - destruct (Rlt_dec (Q2R (Value m1) / 100) 0.085),
             (Rlt_dec (Q2R (Value m2) / 100) 0.085); lra.
  - destruct (Rlt_dec (Q2R (Value m1) / 100) 0.085),
             (Rlt_dec (Q2R (Value m2) / 100) 0.085); lra.
  - destruct (Rlt_dec (Q2R (Value m2) / 100) 0.085); lra.
  - intros Hv. apply Qle_Rle in Hv. rewrite ExactFacts.Q2R_0 in Hv.
    destruct (Rlt_dec (Q2R (Value m1) / 100) 0.085); lra.
Qed.

Lemma savings_rate_witness :
  (Poupanca.monthTax (F := Exact) {| Value := 8 |}
   <= Poupanca.monthTax (F := Exact) {| Value := 10.5 |})%R
  /\ (PoupancaMonthly.monthTax (F := Exact) {| Value := 8 |}
      <= PoupancaMonthly.monthTax (F := Exact) {| Value := 10.5 |})%R
  /\ (Poupanca.monthTax (F := Exact) {| Value := 10.5 |} <= 0.005)%R
  /\ ((0 <= 8)%Q -> (0 <= Poupanca.monthTax (F := Exact) {| Value := 8 |})%R).
Proof.
  apply (savings_rate_is_capped_and_monotone {| Value := 8 |} {| Value := 10.5 |}).
  cbn. unfold Qle. simpl. lia.
Defined.

(** X18. With a SELIC that is not negative, the amount [SimulatePoupanca]
    computes for a principal that is not negative never falls when the
    months grow, and is never below the principal rounded to cents. This is
    the formula read in exact arithmetic; the bounds (at most 1200 months, a
    principal of at most 10^12) keep every intermediate amount inside the
    range of [float64]. *)
Theorem savings_amount_never_shrinks :
  forall (metric : Metric) (principal : R) (m1 m2 : Z) (acc1 acc2 : option R),
    (0 <= Value metric)%Q -> (0 <= principal <= 1000000000000)%R ->
    (0 <= m1 <= m2)%Z -> (m2 <= 1200)%Z ->
    (round2 (F := Exact) principal
     <= Poupanca.result metric (mkRequest Exact principal m1 acc1)
     <= Poupanca.result metric (mkRequest Exact principal m2 acc2))%R.
Proof.
  intros metric principal m1 m2 acc1 acc2 Hv [Hp _] Hm _.
  apply Qle_Rle in Hv. rewrite ExactFacts.Q2R_0 in Hv.
  pose proof (monthTax_nonneg metric Hv) as [Hrate _].
  rewrite !Poupanca_result_exact.
  rewrite !Poupanca_finalAmount_exact by (cbn; lia).
  cbn [InitialValue Months mkRequest].
  set (a := (1 + Poupanca.monthTax (F := Exact) metric)%R) in *.
  assert (Ha : (1 <= a)%R) by (unfold a; lra).
  assert (H1 : (1 <= a ^ Z.to_nat m1)%R) by now apply pow_R1_Rle.
  assert (H2 : (a ^ Z.to_nat m1 <= a ^ Z.to_nat m2)%R) by (apply Rle_pow; [exact Ha | lia]).
  split; apply ExactFacts.round2_le; nra.
Qed.

Lemma savings_amount_witness :
  (round2 (F := Exact) 1000
   <= Poupanca.result {| Value := 10.5 |} (mkRequest Exact 1000%R 6 None)
   <= Poupanca.result {| Value := 10.5 |} (mkRequest Exact 1000%R 12 None))%R.
Proof.
  apply (savings_amount_never_shrinks {| Value := 10.5 |} 1000%R 6 12 None None).
  - cbn. unfold Qle. simpl. lia.
  - lra.
  - lia.
  - lia.
Defined.

(** X19. [SimulateCDB] never computes less than a principal that is a whole
    number of units, when the CDI is not negative: the tax is a share of the
    profit. (A principal with cents is floored before it is compounded, and
    can come back smaller.) This is the formula read in exact arithmetic;
    the bounds (at most 1200 months, a CDI of at most 1% a day, a principal
    of at most 10^12) keep every intermediate amount inside the range of
    [float64]. *)
Theorem fixed_income_keeps_a_whole_principal :
  forall (metric : Metric) (request : SimulationRequest Exact),
    (0 <= Value metric <= 1)%Q ->
    (0 <= InitialValue request <= 1000000000000)%R ->
    ExactOps.Floor (InitialValue request) = InitialValue request ->
    (0 <= Months request <= 1200)%Z ->
    (InitialValue request <= CDB.result metric request)%R.
Proof.
  intros metric request [Hv _] [Hp _] Hwhole [Hlo Hlong].
  assert (Hhi : (Months request * 365 < 2 ^ 63)%Z) by lia.
  apply Qle_Rle in Hv. rewrite ExactFacts.Q2R_0 in Hv.
  rewrite <- (round2_whole (InitialValue request)) at 1 by exact Hwhole.
  rewrite result_exact. apply ExactFacts.round2_le.
  rewrite grossAmount_exact by assumption.
  unfold ExactOps.Floor in Hwhole. rewrite Hwhole.
  set (a := (1 + Q2R (Value metric) / 100)%R).
  assert (Ha : (1 <= a)%R) by (unfold a; lra).
  assert (H1 : (1 <= a ^ Z.to_nat (21 * Months request))%R) by now apply pow_R1_Rle.
  pose proof (taxRate_bounds request) as Ht.
  set (p := InitialValue request) in *. set (g := (p * a ^ _)%R).
  assert (Hg : (0 <= g - p)%R) by (unfold g; nra).
  replace (g - (g - p) * CDB.taxRate request / 100)%R
    with (p + (g - p) * (1 - CDB.taxRate request / 100))%R by lra.
  assert (0 <= (g - p) * (1 - CDB.taxRate request / 100))%R; [| lra].
  apply Rmult_le_pos; lra.
Qed.

Lemma fixed_income_keeps_witness :
  (InitialValue (mkRequest Exact 1000%R 6 None)
   <= CDB.result {| Value := 0.05 |} (mkRequest Exact 1000%R 6 None))%R.
Proof.
  apply (fixed_income_keeps_a_whole_principal {| Value := 0.05 |}
           (mkRequest Exact 1000%R 6 None)).
  - cbn. unfold Qle. simpl. lia.
  - cbn. lra.
  - apply (ExactFacts.Floor_IZR 1000).
  - cbn. lia.
Defined.

(** X20. For the same months and a CDI that is not negative, [SimulateCDB]
    never computes less for a larger principal, whole or not, negative or
    not: flooring the principal costs cents but keeps the order. This is
    the formula read in exact arithmetic; the bounds (at most 1200 months, a
    CDI of at most 1% a day, principals of at most 10^12 either way) keep
    every intermediate amount inside the range of [float64]. *)
Theorem fixed_income_is_monotone_in_the_principal :
  forall (metric : Metric) (r1 r2 : SimulationRequest Exact),
    Months r1 = Months r2 -> (0 <= Months r1 <= 1200)%Z ->
    (- 1000000000000 <= InitialValue r1)%R ->
    (InitialValue r1 <= InitialValue r2)%R ->
    (InitialValue r2 <= 1000000000000)%R ->
    (0 <= Value metric <= 1)%Q ->
    (CDB.result metric r1 <= CDB.result metric r2)%R.
Proof.
  intros metric r1 r2 Hm _ _ Hp _ [Hv _].
  apply Qle_Rle in Hv. rewrite ExactFacts.Q2R_0 in Hv.
  assert (Hrate : (0 < 1 + CDB.adjustedDailyCdi (F := Exact) metric)%R).
  { rewrite adjustedDailyCdi_exact. lra. }
  rewrite !result_exact. apply ExactFacts.round2_le.
  rewrite (taxRate_of_months r1 r2 Hm).
  pose proof (taxRate_bounds r2) as Ht.
  unfold CDB.grossAmount, CDB.initialValue, CDB.businessDays, CDB.months.
  rewrite Hm.
  cbn [fmul fadd const of_int Floor Pow Exact]. rewrite ExactFacts.Pow_of_int.
  autorewrite with constants.
  set (g := powerRZ _ _).
  assert (Hg : (0 < g)%R) by (apply powerRZ_lt; exact Hrate).
  pose proof (Floor_le _ _ Hp) as Hfloor.
  set (f1 := ExactOps.Floor (InitialValue r1)) in *.
  set (f2 := ExactOps.Floor (InitialValue r2)) in *.
  set (t := CDB.taxRate r2) in *.
  assert (Hgross : (0 <= (f2 - f1) * g * (1 - t / 100))%R).
  { apply Rmult_le_pos; [apply Rmult_le_pos |]; lra. }
  assert (Htax : (0 <= (InitialValue r2 - InitialValue r1) * (t / 100))%R).
  { apply Rmult_le_pos; lra. }
  lra.
Qed.

Lemma fixed_income_monotone_witness :
  (CDB.result {| Value := 0.05 |} (mkRequest Exact 1000.5%R 6 None)
   <= CDB.result {| Value := 0.05 |} (mkRequest Exact 1001%R 6 (Some 3%R)))%R.
Proof.
  apply (fixed_income_is_monotone_in_the_principal {| Value := 0.05 |}
           (mkRequest Exact 1000.5%R 6 None) (mkRequest Exact 1001%R 6 (Some 3%R))).
  - reflexivity.
  - cbn. lia.
  - cbn. lra.
  - cbn. lra.
  - cbn. lra.
  - cbn. unfold Qle. simpl. lia.
Defined.

(* ================================================================= *)
(** ** The annuity of [SimulatePoupancaMonthly] *)

Section Annuity.
Local Open Scope R_scope.


End Annuity.



(* ================================================================= *)
(** ** The same runs in binary64 *)

(** The findings above are stated in exact arithmetic; evaluated in
    binary64 the handlers give the same figures. *)

Example ieee_cdb_one_year :
  SimulateCDB (handlerOf (constantRates 0.05 10.5)) (mkRequest IEEE 1000%float 12 None) start
  = (IEEEOps.of_Q 1110.75, None, {| fetched := 1; ctx := [] |}).
Proof. reflexivity. Qed.

(** Six months are taxed at 22.5%, the tier of [totalDays = 0]. *)
Example ieee_cdb_six_months :
  SimulateCDB (handlerOf (constantRates 0.05 10.5)) (mkRequest IEEE 1000%float 6 None) start
  = (IEEEOps.of_Q 1050.38, None, {| fetched := 1; ctx := [] |}).
Proof. reflexivity. Qed.

Example ieee_cdb_falls_between_11_and_12_months :
  let rh := handlerOf (constantRates 0.05 10.5) in
  fst (SimulateCDB rh (mkRequest IEEE 0.5%float 11 None) start) = (IEEEOps.of_Q 0.11, None)
  /\ fst (SimulateCDB rh (mkRequest IEEE 0.5%float 12 None) start) = (IEEEOps.of_Q 0.09, None).
Proof. split; reflexivity. Qed.

Example ieee_monthly_total_of_rounded_terms :
  snd (SimulateMonthlyRendiments (handlerOf (constantRates 0.05 10.5))
         (inl (mkRequest IEEE 1%float 2 None)) start)
  = {| fetched := 3;
       ctx := [JSON StatusOK
                 (Simulations (mkResponse IEEE (IEEEOps.of_Q 0.22) 1%float))] |}.
Proof. reflexivity. Qed.

Example ieee_failed_month :
  let rates := constantRates 0.05 10.5 in
  let total := fun repo : MetricRepository =>
    snd (SimulateMonthlyRendiments (handlerOf repo)
           (inl (mkRequest IEEE 1200%float 12 None)) start) in
  total rates
  = {| fetched := 13;
       ctx := [JSON StatusOK
                 (Simulations
                    (mkResponse IEEE (IEEEOps.of_Q 1255.93) (IEEEOps.of_Q 1233.56)))] |}
  /\ total (failingAt 3 rates)
     = {| fetched := 13;
          ctx := [AbortWithStatusJSON StatusInternalServerError
                    (gin_H StatusInternalServerError ErrFindMetric);
                  JSON StatusOK
                    (Simulations
                       (mkResponse IEEE (IEEEOps.of_Q 1153.45) (IEEEOps.of_Q 1233.56)))] |}.
Proof. split; reflexivity. Qed.

(** The order statements above are about the formulas in exact arithmetic,
    inside bounds that keep binary64 finite. Past them the amounts are no
    amounts: at a CDI of 0.05% a day a principal of 1000 returns +Inf after
    66699 months, -Inf after 66700 and NaN after 100000. *)
Example ieee_cdb_overflows :
  let cdb := fun months : Z =>
    fst (fst (SimulateCDB (handlerOf (constantRates 0.05 10.5))
                (mkRequest IEEE 1000%float months None) start)) in
  cdb 66699%Z = infinity /\ cdb 66700%Z = neg_infinity /\ cdb 100000%Z = nan.
Proof. repeat split; reflexivity. Qed.

(** Inside them binary64 follows the exact order on these runs: a principal
    of 1000.50 over longer and longer terms, and larger and larger
    principals over 12 months. *)
Example ieee_cdb_grows_with_months :
  map (fun months : Z =>
         CDB.result (F := IEEE) {| Value := 0.05 |}
           (mkRequest IEEE (IEEEOps.of_Q 1000.5) months None))
      [1; 11; 12; 23; 24; 120; 1200]%Z
  = map IEEEOps.of_Q [1008.29; 1094.97; 1110.84; 1225.38; 1243.61; 3145.74; 251282408.06]%Q.
Proof. reflexivity. Qed.

Example ieee_cdb_grows_with_the_principal :
  map (fun principal : Q =>
         CDB.result (F := IEEE) {| Value := 0.05 |}
           (mkRequest IEEE (IEEEOps.of_Q principal) 12 None))
      [-5.5; -5; 0; 0.5; 1; 1000; 1000.5; 1001]%Q
  = map IEEEOps.of_Q [-6.58; -5.55; 0; 0.09; 1.11; 1110.75; 1110.84; 1111.86]%Q.
Proof. reflexivity. Qed.

Example ieee_savings_grow_with_months :
  map (fun months : Z =>
         Poupanca.result (F := IEEE) {| Value := 10.5 |}
           (mkRequest IEEE 1000%float months None))
      [0; 1; 6; 12; 120; 1200]%Z
  = map IEEEOps.of_Q [1000; 1005; 1030.38; 1061.68; 1819.4; 397442.32]%Q.
Proof. reflexivity. Qed.
